(** * Smart attendance system: the Express backend (server/server.js)

    A shallow embedding of the request handlers of [server.js] and of the
    part of the hosted store they talk to, followed by the properties of the
    attendance confirmation protocol, the training flag and the query
    surfaces.

    Conventions.
    - Instants are milliseconds since the epoch, as [Z]: what [Date.now()]
      returns and what [toISOString()] prints with millisecond precision.
    - A request body and a query string are JavaScript objects used as maps:
      [gmap string value].  A value is any value of a parsed JSON text,
      objects and arrays included; what is written to the store travels as
      JSON.
    - What a handler writes to the console is not modelled, but building
      the text is: a template literal converts its values to strings, and
      that conversion can throw.
    - Every [await supabase...] is one round trip to the store.  It resolves
      with [{ data, error }] or it throws; which of the three happens is an
      input of the handler (a [Fault]), so that every behaviour of the
      persistence layer is covered. *)

From stdpp Require Import gmap strings list sorting pretty.
From Stdlib Require Import ZArith Qcanon Ascii.

Local Open Scope Z_scope.

(** ** JavaScript values of a parsed JSON body *)

(** What [JSON.parse] produces, and [undefined] for what is absent.  A
    number is a finite one, as an exact rational, or an infinite one (the
    text [1e400] parses to [Infinity]); [NaN] is not JSON.  An object is the
    list of its own members, in the order in which they are enumerated: all
    of them are data, none is a function. *)
Local Set Warnings "-register-all".
Inductive value : Type :=
| VUndefined
| VNull
| VBool (b : bool)
| VNum (q : Qc)
| VInfinity (negative : bool)
| VStr (s : string)
| VArr (items : list value)
| VObj (members : list (string * value)).

Global Instance value_eq_dec : EqDecision value.
Proof.
  refine (fix go (a b : value) {struct a} : Decision (a = b) :=
    match a, b with
    | VUndefined, VUndefined => left _
    | VNull, VNull => left _
    | VBool b1, VBool b2 => cast_if (decide (b1 = b2))
    | VNum q1, VNum q2 => cast_if (decide (q1 = q2))
    | VInfinity n1, VInfinity n2 => cast_if (decide (n1 = n2))
    | VStr s1, VStr s2 => cast_if (decide (s1 = s2))
    | VArr l1, VArr l2 => cast_if (@list_eq_dec _ go l1 l2)
    | VObj m1, VObj m2 =>
        cast_if (@list_eq_dec _ (@prod_eq_dec _ _ _ go) m1 m2)
    | _, _ => right _
    end); clear go; abstract congruence.
Defined.

Global Instance value_inhabited : Inhabited value := populate VUndefined.

(** [ToBoolean]: the falsy values are [undefined], [null], [false], zero
    and the empty string; objects and arrays are always truthy. *)
Definition truthy (v : value) : bool :=
  match v with
  | VUndefined | VNull => false
  | VBool b => b
  | VNum q => bool_decide (q ≠ 0%Qc)
  | VInfinity _ => true
  | VStr s => bool_decide (s ≠ "")
  | VArr _ | VObj _ => true
  end.

(** Whether the conversion of a value to a string succeeds, as a template
    literal performs it.  An object converts through its [toString], which
    is the inherited one unless the object has a member of that name; such
    a member is data, not a function, and neither it nor [valueOf] yields a
    primitive, so the conversion throws a TypeError.  An array joins the
    conversions of its items. *)
Fixpoint stringifies (v : value) : bool :=
  match v with
  | VArr items => forallb stringifies items
  | VObj members =>
      negb (existsb (λ m, bool_decide (m.1 = "toString")) members)
  | _ => true
  end.

(** What a value is once it has travelled as JSON ([JSON.stringify], then
    parsed by the store): an infinite number becomes [null]. *)
Fixpoint as_json (v : value) : value :=
  match v with
  | VUndefined => VNull
  | VInfinity _ => VNull
  | VArr items => VArr (map as_json items)
  | VObj members => VObj (map (λ m, (m.1, as_json m.2)) members)
  | _ => v
  end.

(** [a || b] *)
Definition js_or (a b : value) : value := if truthy a then a else b.

(** Destructuring [const { k } = obj]: an absent key reads as [undefined]. *)
Definition field (obj : gmap string value) (k : string) : value :=
  default VUndefined (obj !! k).

(** ** Tables *)

Module Students.
Record row : Type := {
  id : string;
  name : string;
  email : string;
  is_trained : bool
}.

Global Instance row_eq_dec : EqDecision row.
Proof. solve_decision. Defined.
End Students.

Module Attendance.
Record row : Type := {
  id : Z;
  student_id : value;
  student_name : value;
  room_id : value;
  confidence : value;
  timestamp : Z
}.

Global Instance row_eq_dec : EqDecision row.
Proof. solve_decision. Defined.
End Attendance.

(** ** The query builder of the store client

    [from(t).select('*')] followed by [.eq], [.gte], [.lte], [.order] and
    [.limit] builds one statement; the store keeps the rows that satisfy
    every condition, orders them and then cuts the result. *)

Module Supabase.
Record Query (R : Type) : Type := {
  conds : list (R → bool);
  ordering : option (R → R → bool);
  lim : option nat
}.
Arguments conds {R} _.
Arguments ordering {R} _.
Arguments lim {R} _.

Section builder.
Context {R : Type}.

Definition select_all : Query R :=
  {| conds := []; ordering := None; lim := None |}.

Definition where_ (c : R → bool) (q : Query R) : Query R :=
  {| conds := conds q ++ [c]; ordering := ordering q; lim := lim q |}.

Definition eq `{EqDecision C} (col : R → C) (v : C) : Query R → Query R :=
  where_ (λ r, bool_decide (col r = v)).

Definition gte (col : R → Z) (t : Z) : Query R → Query R :=
  where_ (λ r, bool_decide (t ≤ col r)).

Definition lte (col : R → Z) (t : Z) : Query R → Query R :=
  where_ (λ r, bool_decide (col r ≤ t)).

Definition order (le : R → R → bool) (q : Query R) : Query R :=
  {| conds := conds q; ordering := Some le; lim := lim q |}.

Definition limit (n : nat) (q : Query R) : Query R :=
  {| conds := conds q; ordering := ordering q; lim := Some n |}.

Definition matches (q : Query R) (r : R) : bool :=
  forallb (λ c, c r) (conds q).

Definition execute (q : Query R) (rows : list R) : list R :=
  let kept := filter (λ r, matches q r) rows in
  let sorted :=
    match ordering q with
    | Some le => merge_sort (λ a b, le a b) kept
    | None => kept
    end in
  match lim q with
  | Some n => take n sorted
  | None => sorted
  end.
End builder.

(** [{ ascending: false }] on a time column, [{ ascending: true }] on a
    text column. *)
Definition descending {R} (col : R → Z) (a b : R) : bool :=
  bool_decide (col b ≤ col a).

Definition ascending {R} (col : R → string) (a b : R) : bool :=
  bool_decide (String.le (col a) (col b)).
End Supabase.

(** ** The store and the round trips to it *)

(** One entry per [await supabase.from(t)...]: the statement sent. *)
Inductive Call : Type :=
| Select (table : string)
| Insert (table : string)
| Update (table : string).

Global Instance Call_eq_dec : EqDecision Call.
Proof. solve_decision. Defined.

Record World : Type := {
  students : list Students.row;
  attendance : list Attendance.row;
  calls : list Call
}.

(** What the persistence layer does with one statement. *)
Inductive Fault : Type :=
| Healthy                       (* resolves with [{ data, error: null }] *)
| Fails (message : string)      (* resolves with [{ data: null, error }] *)
| Throws.                       (* the awaited promise rejects *)

(** [{ data, error }] *)
Record reply (A : Type) : Type := {
  data : option A;
  error : option string
}.
Arguments data {A} _.
Arguments error {A} _.

(** A handler body runs inside [try { ... } catch (err) { ... }]: a step
    either returns or raises, and threads the store. *)
Inductive outcome (A : Type) : Type :=
| Returned (a : A)
| Raised.
Arguments Returned {A} _.
Arguments Raised {A}.

Definition Handler (A : Type) : Type := World → outcome A * World.

Definition ret {A} (a : A) : Handler A := λ w, (Returned a, w).

Definition raise {A} : Handler A := λ w, (Raised, w).

Definition bind {A B} (m : Handler A) (k : A → Handler B) : Handler B :=
  λ w, match m w with
       | (Returned a, w') => k a w'
       | (Raised, w') => (Raised, w')
       end.

Definition try_catch {A} (body : Handler A) (handler : Handler A) : Handler A :=
  λ w, match body w with
       | (Returned a, w') => (Returned a, w')
       | (Raised, w') => handler w'
       end.

(** [await] marks the suspension points of the source. *)
Definition await {A} (m : Handler A) : Handler A := m.

Notation "x '<-' m ';;' k" := (bind m (λ x, k))
  (at level 100, m at next level, right associativity,
   format "'[v' x  '<-'  m  ';;' '/' k ']'").

Definition log (c : Call) (w : World) : World :=
  {| students := students w; attendance := attendance w;
     calls := calls w ++ [c] |}.

(** One round trip: the statement is logged, and it takes effect only when
    the store is healthy. *)
Definition round_trip {A} (c : Call) (f : Fault)
    (effect : World → A * World) : Handler (reply A) :=
  λ w,
    let w := log c w in
    match f with
    | Healthy =>
        let '(a, w') := effect w in
        (Returned {| data := Some a; error := None |}, w')
    | Fails message =>
        (Returned {| data := None; error := Some message |}, w)
    | Throws => (Raised, w)
    end.

(** [supabase.from('students').select('*')...] *)
Definition select_students (f : Fault) (q : Supabase.Query Students.row)
  : Handler (reply (list Students.row)) :=
  round_trip (Select "students") f
    (λ w, (Supabase.execute q (students w), w)).

(** [supabase.from('attendance').select('*')...] *)
Definition select_attendance (f : Fault) (q : Supabase.Query Attendance.row)
  : Handler (reply (list Attendance.row)) :=
  round_trip (Select "attendance") f
    (λ w, (Supabase.execute q (attendance w), w)).

(** The assignment [{ is_trained: true }] on one row. *)
Definition set_trained (s : Students.row) : Students.row :=
  {| Students.id := Students.id s; Students.name := Students.name s;
     Students.email := Students.email s; Students.is_trained := true |}.

(** [supabase.from('students').update({ is_trained: true })...select()]:
    the rows that satisfy the conditions are rewritten in place and
    returned. *)
Definition update_students_trained (f : Fault)
    (q : Supabase.Query Students.row) : Handler (reply (list Students.row)) :=
  round_trip (Update "students") f
    (λ w,
       let rows :=
         (λ s, if Supabase.matches q s then set_trained s else s)
           <$> students w in
       (set_trained <$> filter (λ s, Supabase.matches q s) (students w),
        {| students := rows; attendance := attendance w;
           calls := calls w |})).

(** [supabase.from('attendance').insert([{ ... }]).select()]: the row
    travels as JSON; the store numbers it, appends it and returns it. *)
Definition insert_attendance (f : Fault)
    (student_id student_name room_id confidence : value) (timestamp : Z)
  : Handler (reply (list Attendance.row)) :=
  round_trip (Insert "attendance") f
    (λ w,
       let r :=
         {| Attendance.id := Z.of_nat (length (attendance w)) + 1;
            Attendance.student_id := as_json student_id;
            Attendance.student_name := as_json student_name;
            Attendance.room_id := as_json room_id;
            Attendance.confidence := as_json confidence;
            Attendance.timestamp := timestamp |} in
       ([r],
        {| students := students w; attendance := attendance w ++ [r];
           calls := calls w |})).

(** ** Responses *)

Inductive Body : Type :=
| ErrorBody (error : string)
| StudentRows (rows : list Students.row)
| AttendanceRows (rows : list Attendance.row)
| TrainedBody (message : string) (student : option Students.row)
| DuplicateBody (error : string) (lastAttendance : Attendance.row)
| ConfirmedBody (message : string) (attendance : option Attendance.row).

Record Response : Type := {
  status : Z;
  json : Body
}.

(** [res.status(code).json(body)]; [res.json(body)] answers 200. *)
Definition res_status_json (code : Z) (body : Body) : Handler Response :=
  ret {| status := code; json := body |}.

Definition res_json (body : Body) : Handler Response :=
  res_status_json 200 body.

(** A template literal [`...${v}...`]: the conversion of [v] to a string
    throws when it fails; the text itself is only logged. *)
Definition template_literal (v : value) : Handler unit :=
  if stringifies v then ret tt else raise.

(** The [catch (err)] clause shared by all handlers. *)
Definition internal_server_error : Handler Response :=
  res_status_json 500 (ErrorBody "Internal server error").

(** ** The handlers of [server.js] *)

(** [GET /api/students] *)
Definition get_students (f : Fault) : Handler Response :=
  try_catch
    (r <- await
       (select_students f
          (Supabase.order (Supabase.ascending Students.name)
             Supabase.select_all)) ;;
     match error r, data r with
     | Some message, _ => res_status_json 500 (ErrorBody message)
     | None, Some rows => res_json (StudentRows rows)
     | None, None => raise
     end)
    internal_server_error.

(** [GET /api/students/untrained] *)
Definition get_students_untrained (f : Fault) : Handler Response :=
  try_catch
    (r <- await
       (select_students f
          (Supabase.order (Supabase.ascending Students.name)
             (Supabase.eq Students.is_trained false Supabase.select_all))) ;;
     match error r, data r with
     | Some message, _ => res_status_json 500 (ErrorBody message)
     | None, Some rows => res_json (StudentRows rows)
     | None, None => raise
     end)
    internal_server_error.

(** [POST /api/students/:id/trained] *)
Definition post_students_trained (id : string) (f : Fault)
  : Handler Response :=
  try_catch
    (r <- await
       (update_students_trained f
          (Supabase.eq Students.id id Supabase.select_all)) ;;
     match error r, data r with
     | Some message, _ => res_status_json 500 (ErrorBody message)
     | None, Some rows =>
         res_json (TrainedBody "Student marked as trained" (head rows))
     | None, None => raise
     end)
    internal_server_error.

(** The duplicate check of [POST /api/attendance/confirm]: the most recent
    row of the same student and room stamped at or after [fiveMinutesAgo]. *)
Definition recent_attendance (student_id room_id : value)
    (fiveMinutesAgo : Z) : Supabase.Query Attendance.row :=
  Supabase.limit 1
    (Supabase.order (Supabase.descending Attendance.timestamp)
       (Supabase.gte Attendance.timestamp fiveMinutesAgo
          (Supabase.eq Attendance.room_id room_id
             (Supabase.eq Attendance.student_id student_id
                Supabase.select_all)))).

(** [POST /api/attendance/confirm].  The request is logged first, and the
    log entry holds a truthy [confidence] as text, in a template literal.
    [now_check] is what [Date.now()] reads when the window is computed and
    [now_insert] what [new Date()] reads when the row is built; [f_check]
    and [f_insert] are the behaviour of the store on the duplicate check
    and on the insert. *)
Definition post_attendance_confirm (body : gmap string value)
    (now_check now_insert : Z) (f_check f_insert : Fault)
  : Handler Response :=
  try_catch
    (let student_id := field body "student_id" in
     let student_name := field body "student_name" in
     let room_id := field body "room_id" in
     let confidence := field body "confidence" in
     logged <- (if truthy confidence then template_literal confidence
                else ret tt) ;;
     if negb (truthy student_id) || negb (truthy student_name)
        || negb (truthy room_id)
     then
       res_status_json 400
         (ErrorBody
            "Missing required fields: student_id, student_name, room_id")
     else
       let fiveMinutesAgo := now_check - 5 * 60 * 1000 in
       check <- await
         (select_attendance f_check
            (recent_attendance student_id room_id fiveMinutesAgo)) ;;
       match error check, data check with
       | None, Some (last :: _) =>
           res_status_json 409
             (DuplicateBody "Attendance already recorded recently" last)
       | _, _ =>
           r <- await
             (insert_attendance f_insert student_id student_name room_id
                (js_or confidence VNull) now_insert) ;;
           match error r, data r with
           | Some message, _ => res_status_json 500 (ErrorBody message)
           | None, Some rows =>
               res_status_json 201
                 (ConfirmedBody "Attendance confirmed successfully"
                    (head rows))
           | None, None => raise
           end
       end)
    internal_server_error.

(** ** Dates of the platform, as far as [GET /api/attendance] uses them *)

Definition msPerDay : Z := 86400000.

Section attendance_query.
(** [new Date(v)]: the time value, or [None] for an Invalid Date. *)
Variable new_Date : value → option Z.
(** Offset of local time from UTC, in milliseconds (no daylight saving). *)
Variable LocalTZA : Z.

(** [d.setHours(h, m, s, ms)]: keeps the local day of [d] and replaces
    the time within it; an Invalid Date stays invalid. *)
Definition setHours (h m s ms : Z) (d : option Z) : option Z :=
  match d with
  | Some t =>
      let day := (t + LocalTZA) `div` msPerDay in
      Some (day * msPerDay
            + (h * 3600000 + m * 60000 + s * 1000 + ms) - LocalTZA)
  | None => None
  end.

(** [d.toISOString()] throws a RangeError on an Invalid Date. *)
Definition toISOString (d : option Z) : Handler Z :=
  match d with
  | Some t => ret t
  | None => raise
  end.

(** [GET /api/attendance] *)
Definition get_attendance (query : gmap string value) (f : Fault)
  : Handler Response :=
  try_catch
    (let student_id := field query "student_id" in
     let room_id := field query "room_id" in
     let date := field query "date" in
     let q :=
       Supabase.order (Supabase.descending Attendance.timestamp)
         Supabase.select_all in
     let q :=
       if truthy student_id
       then Supabase.eq Attendance.student_id student_id q else q in
     let q :=
       if truthy room_id
       then Supabase.eq Attendance.room_id room_id q else q in
     q <- (if truthy date then
             let startOfDay := setHours 0 0 0 0 (new_Date date) in
             let endOfDay := setHours 23 59 59 999 (new_Date date) in
             since <- toISOString startOfDay ;;
             till <- toISOString endOfDay ;;
             ret (Supabase.lte Attendance.timestamp till
                    (Supabase.gte Attendance.timestamp since q))
           else ret q) ;;
     r <- await (select_attendance f q) ;;
     match error r, data r with
     | Some message, _ => res_status_json 500 (ErrorBody message)
     | None, Some rows => res_json (AttendanceRows rows)
     | None, None => raise
     end)
    internal_server_error.
End attendance_query.

(** *** A concrete platform date

    The part of the date parser of the platform that reads the date-only
    form [YYYY-MM-DD]: midnight UTC of that day.  A month is 1 to 12 and a
    day 1 to 31; a day past the end of its month runs into the next month
    (the 30th of February is the 1st of March).  Text of any other form is
    not covered: it reads as an Invalid Date here, which the platform does
    not always agree with. *)

Definition DayFromYear (y : Z) : Z :=
  365 * (y - 1970) + (y - 1969) `div` 4 - (y - 1901) `div` 100
  + (y - 1601) `div` 400.

Definition InLeapYear (y : Z) : bool :=
  bool_decide (y `mod` 4 = 0) &&
  (negb (bool_decide (y `mod` 100 = 0)) || bool_decide (y `mod` 400 = 0)).

Definition DaysInMonth (y m : Z) : Z :=
  if bool_decide (m = 2) then (if InLeapYear y then 29 else 28)
  else if bool_decide (m = 4 ∨ m = 6 ∨ m = 9 ∨ m = 11) then 30
  else 31.

Fixpoint DaysBeforeMonth (y : Z) (m : nat) : Z :=
  match m with
  | O => 0
  | S k => DaysBeforeMonth y k + DaysInMonth y (Z.of_nat (S k))
  end.

(** [MakeDay(y, m, d)] with [m] in [1..12] and [d] counted from 1. *)
Definition MakeDay (y m d : Z) : Z :=
  DayFromYear y + DaysBeforeMonth y (Z.to_nat (m - 1)) + (d - 1).

(** [Date.UTC(y, m - 1, d, h, mi, s, ms)] *)
Definition Date_UTC (y m d h mi s ms : Z) : Z :=
  MakeDay y m d * msPerDay + h * 3600000 + mi * 60000 + s * 1000 + ms.

Definition digit (c : ascii) : option Z :=
  let n := Z.of_N (N_of_ascii c) in
  if bool_decide (48 ≤ n ≤ 57) then Some (n - 48) else None.

Fixpoint digits (acc : Z) (cs : list ascii) : option Z :=
  match cs with
  | [] => Some acc
  | c :: cs' =>
      match digit c with
      | Some n => digits (10 * acc + n) cs'
      | None => None
      end
  end.

Definition parse_date_only (s : string) : option Z :=
  match String.list_ascii_of_string s with
  | [y1; y2; y3; y4; "-"%char; m1; m2; "-"%char; d1; d2] =>
      match digits 0 [y1; y2; y3; y4], digits 0 [m1; m2], digits 0 [d1; d2] with
      | Some y, Some m, Some d =>
          if bool_decide (1 ≤ m ≤ 12 ∧ 1 ≤ d ≤ 31)
          then Some (MakeDay y m d * msPerDay)
          else None
      | _, _, _ => None
      end
  | _ => None
  end.

Definition new_Date_iso (v : value) : option Z :=
  match v with
  | VStr s => parse_date_only s
  | _ => None
  end.

(** * Vocabulary of the statements *)

(** The three required fields are all truthy. *)
Definition valid (body : gmap string value) : bool :=
  truthy (field body "student_id") && truthy (field body "student_name")
  && truthy (field body "room_id").

(** A row of the given student and room stamped at or after [since]. *)
Definition recent (student_id room_id : value) (since : Z)
    (r : Attendance.row) : Prop :=
  Attendance.student_id r = student_id ∧ Attendance.room_id r = room_id
  ∧ since ≤ Attendance.timestamp r.

(** The request can be logged: its [confidence] is falsy, or converts to
    a string. *)
Definition logs (body : gmap string value) : bool :=
  negb (truthy (field body "confidence"))
  || stringifies (field body "confidence").

(** A value that is stored as it was sent: it holds no infinite number. *)
Definition stored_as_sent (v : value) : Prop := as_json v = v.

(** The row that a confirmation appends to the ledger [ledger]. *)
Definition confirmed_row (body : gmap string value) (now_insert : Z)
    (ledger : list Attendance.row) : Attendance.row :=
  {| Attendance.id := Z.of_nat (length ledger) + 1;
     Attendance.student_id := as_json (field body "student_id");
     Attendance.student_name := as_json (field body "student_name");
     Attendance.room_id := as_json (field body "room_id");
     Attendance.confidence :=
       as_json (js_or (field body "confidence") VNull);
     Attendance.timestamp := now_insert |}.

(** The answers of the confirmation handler. *)
Definition missing_fields : Response :=
  {| status := 400;
     json := ErrorBody
               "Missing required fields: student_id, student_name, room_id" |}.

Definition duplicate (last : Attendance.row) : Response :=
  {| status := 409;
     json := DuplicateBody "Attendance already recorded recently" last |}.

Definition confirmed (r : Attendance.row) : Response :=
  {| status := 201;
     json := ConfirmedBody "Attendance confirmed successfully" (Some r) |}.

Definition storage_error (message : string) : Response :=
  {| status := 500; json := ErrorBody message |}.

Definition server_error : Response :=
  {| status := 500; json := ErrorBody "Internal server error" |}.

(** The ledger after one row was appended. *)
Definition appended (r : Attendance.row) (w : World) : World :=
  {| students := students w; attendance := attendance w ++ [r];
     calls := calls w |}.

(** The handler reaches the insert when the duplicate check found nothing,
    and also when the check came back with an error. *)
Definition reaches_insert (body : gmap string value) (now_check : Z)
    (f_check : Fault) (w : World) : Prop :=
  (f_check = Healthy
   ∧ Supabase.execute
       (recent_attendance (field body "student_id") (field body "room_id")
          (now_check - 5 * 60 * 1000)) (attendance w) = [])
  ∨ (∃ message, f_check = Fails message).

(** Every run of the handler falls under exactly one of these cases. *)
Inductive confirm_run (body : gmap string value) (now_check now_insert : Z)
    (f_check f_insert : Fault) (w : World) : outcome Response * World → Prop :=
| run_log_throws :
    logs body = false →
    confirm_run body now_check now_insert f_check f_insert w
      (Returned server_error, w)
| run_invalid :
    logs body = true → valid body = false →
    confirm_run body now_check now_insert f_check f_insert w
      (Returned missing_fields, w)
| run_check_throws :
    logs body = true → valid body = true → f_check = Throws →
    confirm_run body now_check now_insert f_check f_insert w
      (Returned server_error, log (Select "attendance") w)
| run_duplicate last rest :
    logs body = true → valid body = true → f_check = Healthy →
    Supabase.execute
      (recent_attendance (field body "student_id") (field body "room_id")
         (now_check - 5 * 60 * 1000)) (attendance w) = last :: rest →
    confirm_run body now_check now_insert f_check f_insert w
      (Returned (duplicate last), log (Select "attendance") w)
| run_inserted :
    logs body = true → valid body = true →
    reaches_insert body now_check f_check w →
    f_insert = Healthy →
    confirm_run body now_check now_insert f_check f_insert w
      (Returned (confirmed (confirmed_row body now_insert (attendance w))),
       appended (confirmed_row body now_insert (attendance w))
         (log (Insert "attendance") (log (Select "attendance") w)))
| run_insert_fails message :
    logs body = true → valid body = true →
    reaches_insert body now_check f_check w →
    f_insert = Fails message →
    confirm_run body now_check now_insert f_check f_insert w
      (Returned (storage_error message),
       log (Insert "attendance") (log (Select "attendance") w))
| run_insert_throws :
    logs body = true → valid body = true →
    reaches_insert body now_check f_check w →
    f_insert = Throws →
    confirm_run body now_check now_insert f_check f_insert w
      (Returned server_error,
       log (Insert "attendance") (log (Select "attendance") w)).

(** A required field that is absent from the body, or the empty string. *)
Definition missing_or_empty (body : gmap string value) (k : string) : Prop :=
  body !! k = None ∨ body !! k = Some (VStr "").

(** What the update does to one row of [students]. *)
Definition mark (id : string) (s : Students.row) : Students.row :=
  if bool_decide (Students.id s = id) then set_trained s else s.

(** The local day of the instant [t], as [setHours] delimits it. *)
Definition startOfDay (tz t : Z) : Z := (t + tz) `div` msPerDay * msPerDay - tz.
Definition endOfDay (tz t : Z) : Z := startOfDay tz t + 86399999.

(** The rows that a query to [GET /api/attendance] asks for: each supplied
    parameter restricts the result. *)
Definition selected (new_Date : value → option Z) (tz : Z)
    (query : gmap string value) (r : Attendance.row) : bool :=
  (if truthy (field query "student_id")
   then bool_decide (Attendance.student_id r = field query "student_id")
   else true)
  && (if truthy (field query "room_id")
      then bool_decide (Attendance.room_id r = field query "room_id")
      else true)
  && (if truthy (field query "date")
      then match new_Date (field query "date") with
           | Some t =>
               bool_decide (startOfDay tz t ≤ Attendance.timestamp r
                            ≤ endOfDay tz t)
           | None => false
           end
      else true).

(** Newest first. *)
Definition newest_first (rows : list Attendance.row) : Prop :=
  Sorted (λ a b, Attendance.timestamp b ≤ Attendance.timestamp a) rows.

(** By name, ascending. *)
Definition by_name (rows : list Students.row) : Prop :=
  Sorted (λ a b, String.le (Students.name a) (Students.name b)) rows.

(** * Concrete requests and stores *)

(** The confirmation of the specification's scenario. *)
Definition alice : gmap string value :=
  {[ "student_id" := VStr "S1"; "student_name" := VStr "Alice";
     "room_id" := VStr "R1";
     "confidence" := VNum (Q2Qc (QArith_base.Qmake 925 10)) ]}.

Definition empty_world : World :=
  {| students := []; attendance := []; calls := [] |}.

(** A ledger with one row of Alice in room R1, stamped 0. *)
Definition stale_world : World :=
  {| students := []; attendance := [confirmed_row alice 0 []]; calls := [] |}.

(** The request of the specification's example: [room_id] omitted. *)
Definition no_room : gmap string value :=
  {[ "student_id" := VStr "S1"; "student_name" := VStr "Alice" ]}.

(** The same request with a [confidence] that has no string form:
    the JSON object [{"toString": 1}]. *)
Definition unprintable : gmap string value :=
  <["confidence" := VObj [("toString", VNum 1%Qc)]]> no_room.

(** The same confirmation with a confidence of exactly 0. *)
Definition zero_confidence : gmap string value :=
  <["confidence" := VNum 0%Qc]> alice.

(** A small school. *)
Definition bob_row : Students.row :=
  {| Students.id := "S2"; Students.name := "Bob";
     Students.email := "bob@school.example"; Students.is_trained := false |}.

Definition alice_row : Students.row :=
  {| Students.id := "S1"; Students.name := "Alice";
     Students.email := "alice@school.example"; Students.is_trained := true |}.

Definition late_evening : Attendance.row :=
  {| Attendance.id := 1; Attendance.student_id := VStr "S1";
     Attendance.student_name := VStr "Alice"; Attendance.room_id := VStr "R1";
     Attendance.confidence := VNull;
     Attendance.timestamp := Date_UTC 2024 1 10 23 59 0 0 |}.

Definition past_midnight : Attendance.row :=
  {| Attendance.id := 2; Attendance.student_id := VStr "S2";
     Attendance.student_name := VStr "Bob"; Attendance.room_id := VStr "R1";
     Attendance.confidence := VNull;
     Attendance.timestamp := Date_UTC 2024 1 11 0 1 0 0 |}.

Definition school : World :=
  {| students := [bob_row; alice_row];
     attendance := [late_evening; past_midnight]; calls := [] |}.


Definition on_jan_10 : gmap string value := {[ "date" := VStr "2024-01-10" ]}.


(** * Further vocabulary *)

(** The cooldown of the ledger: of two rows of the same student and room,
    the later one in the ledger is stamped more than 5 minutes after the
    earlier one. *)
Definition spaced (ledger : list Attendance.row) : Prop :=
  ∀ (i j : nat) (ri rj : Attendance.row),
    (i < j)%nat → ledger !! i = Some ri → ledger !! j = Some rj →
    Attendance.student_id ri = Attendance.student_id rj →
    Attendance.room_id ri = Attendance.room_id rj →
    Attendance.timestamp ri + 5 * 60 * 1000 < Attendance.timestamp rj.

(** The same store with another [students] table. *)
Definition with_students (l : list Students.row) (w : World) : World :=
  {| students := l; attendance := attendance w; calls := calls w |}.

(** The query string [?student_id=..&room_id=..]. *)
Definition of_student_in_room (student_id room_id : value)
  : gmap string value :=
  {[ "student_id" := student_id; "room_id" := room_id ]}.

(** Alice under an id that reads as an infinite number: the JSON text
    [1e400]. *)
Definition infinite_id : gmap string value :=
  <["student_id" := VInfinity false]> alice.

(** A confidence that reads as an infinite number. *)
Definition boundless : gmap string value :=
  <["confidence" := VInfinity false]> alice.

(** A confidence of 150 percent, and one that is not a number. *)
Definition overconfident : gmap string value :=
  <["confidence" := VNum (Q2Qc (QArith_base.Qmake 150 1))]> alice.

Definition vague : gmap string value :=
  <["confidence" := VStr "high"]> alice.

(** A handler that only read table [t]: the tables are as before and at
    most one round trip was made, a select on [t]. *)
Definition only_read (t : string) (w w' : World) : Prop :=
  students w' = students w ∧ attendance w' = attendance w
  ∧ (calls w' = calls w ∨ calls w' = calls w ++ [Select t]).


(** A query string with a date that does not parse. *)
Definition on_the_45th : gmap string value :=
  {[ "date" := VStr "2024-13-45" ]}.

(** New York in winter: five hours west of UTC. *)
Definition new_york : Z := - (5 * 3600000).


(** Two rows stamped at noon UTC of 2024-01-09 and of 2024-01-10. *)
Definition noon_9th : Attendance.row :=
  {| Attendance.id := 1; Attendance.student_id := VStr "S1";
     Attendance.student_name := VStr "Alice"; Attendance.room_id := VStr "R1";
     Attendance.confidence := VNull;
     Attendance.timestamp := Date_UTC 2024 1 9 12 0 0 0 |}.

Definition noon_10th : Attendance.row :=
  {| Attendance.id := 2; Attendance.student_id := VStr "S1";
     Attendance.student_name := VStr "Alice"; Attendance.room_id := VStr "R1";
     Attendance.confidence := VNull;
     Attendance.timestamp := Date_UTC 2024 1 10 12 0 0 0 |}.

Definition two_noons : World :=
  {| students := []; attendance := [noon_9th; noon_10th]; calls := [] |}.

(** * Face descriptors *)

Module FaceDescriptors.
Record row : Type := {
  id : Z;
  student_id : value;
  descriptor : value;
  photo_number : value
}.

Global Instance row_eq_dec : EqDecision row.
Proof. solve_decision. Defined.
End FaceDescriptors.

(** The store together with its [face_descriptors] table. *)
Record Registry : Type := {
  world : World;
  face_descriptors : list FaceDescriptors.row
}.

(** The bodies that [POST /api/face-descriptors] answers with. *)
Inductive DescriptorBody : Type :=
| DescriptorError (error : string)
| DescriptorSaved (message : string) (descriptor : option FaceDescriptors.row).

Record DescriptorResponse : Type := {
  descriptor_status : Z;
  descriptor_json : DescriptorBody
}.

(** [supabase.from('face_descriptors').insert([{ ... }]).select()]: one
    round trip, on which the row travels as JSON; a healthy store numbers
    the row, appends it and returns it. *)
Definition insert_face_descriptor (f : Fault)
    (student_id descriptor photo_number : value) (st : Registry)
  : outcome (reply (list FaceDescriptors.row)) * Registry :=
  let st :=
    {| world := log (Insert "face_descriptors") (world st);
       face_descriptors := face_descriptors st |} in
  match f with
  | Healthy =>
      let r :=
        {| FaceDescriptors.id := Z.of_nat (length (face_descriptors st)) + 1;
           FaceDescriptors.student_id := as_json student_id;
           FaceDescriptors.descriptor := as_json descriptor;
           FaceDescriptors.photo_number := as_json photo_number |} in
      (Returned {| data := Some [r]; error := None |},
       {| world := world st;
          face_descriptors := face_descriptors st ++ [r] |})
  | Fails message =>
      (Returned {| data := None; error := Some message |}, st)
  | Throws => (Raised, st)
  end.

(** [POST /api/face-descriptors].  The request is logged first, with
    [student_id] and [photo_number] as text in a template literal; when
    that throws, the [catch] clause answers. *)
Definition post_face_descriptors (body : gmap string value) (f : Fault)
    (st : Registry) : DescriptorResponse * Registry :=
  let student_id := field body "student_id" in
  let descriptor := field body "descriptor" in
  let photo_number := field body "photo_number" in
  if negb (stringifies student_id && stringifies photo_number)
  then
    ({| descriptor_status := 500;
        descriptor_json := DescriptorError "Internal server error" |}, st)
  else if negb (truthy student_id) || negb (truthy descriptor)
     || negb (truthy photo_number)
  then
    ({| descriptor_status := 400;
        descriptor_json :=
          DescriptorError
            "Missing required fields: student_id, descriptor, photo_number" |},
     st)
  else
    match insert_face_descriptor f student_id descriptor photo_number st with
    | (Returned r, st') =>
        match error r, data r with
        | Some message, _ =>
            ({| descriptor_status := 500;
                descriptor_json := DescriptorError message |}, st')
        | None, Some rows =>
            ({| descriptor_status := 201;
                descriptor_json :=
                  DescriptorSaved "Face descriptor saved" (head rows) |},
             st')
        | None, None =>
            ({| descriptor_status := 500;
                descriptor_json := DescriptorError "Internal server error" |},
             st')
        end
    | (Raised, st') =>
        ({| descriptor_status := 500;
            descriptor_json := DescriptorError "Internal server error" |},
         st')
    end.

(** The row that a saved descriptor adds to the table [table]. *)
Definition saved_row (body : gmap string value)
    (table : list FaceDescriptors.row) : FaceDescriptors.row :=
  {| FaceDescriptors.id := Z.of_nat (length table) + 1;
     FaceDescriptors.student_id := as_json (field body "student_id");
     FaceDescriptors.descriptor := as_json (field body "descriptor");
     FaceDescriptors.photo_number := as_json (field body "photo_number") |}.

(** The request can be logged: [student_id] and [photo_number] convert to
    strings. *)
Definition logs_descriptor (body : gmap string value) : bool :=
  stringifies (field body "student_id")
  && stringifies (field body "photo_number").

(** The three required fields of a descriptor are all truthy. *)
Definition valid_descriptor (body : gmap string value) : bool :=
  truthy (field body "student_id") && truthy (field body "descriptor")
  && truthy (field body "photo_number").

(** The first training photo of Bob, with an empty descriptor; the same
    numbered 0. *)
Definition photo_1 : gmap string value :=
  {[ "student_id" := VStr "S2"; "descriptor" := VArr [];
     "photo_number" := VNum 1%Qc ]}.

Definition photo_0 : gmap string value :=
  <["photo_number" := VNum 0%Qc]> photo_1.

(** A photo numbered 0 whose [student_id] has no string form. *)
Definition photo_of_nobody : gmap string value :=
  <["student_id" := VObj [("toString", VNum 1%Qc)]]> photo_0.

Definition school_registry : Registry :=
  {| world := school; face_descriptors := [] |}.

(** * The client: [api.js] and the recognition callback of [App.jsx] *)

(** What [fetch] followed by [response.json()] brings back: the answer of
    the server, a failure of the transport, or nothing (a handler that
    raised without answering). *)
Inductive fetched : Type :=
| Answer (response : Response)
| FetchFailed (message : string)
| NoAnswer.

(** An awaited promise. *)
Inductive settled (A : Type) : Type :=
| Resolved (a : A)
| Rejected (message : string)
| Pending.
Arguments Resolved {A} _.
Arguments Rejected {A} _.
Arguments Pending {A}.

(** The request reaches the handler and its answer comes back. *)
Definition fetch (h : Handler Response) (w : World) : fetched * World :=
  match h w with
  | (Returned response, w') => (Answer response, w')
  | (Raised, w') => (NoAnswer, w')
  end.

(** [response.ok] *)
Definition ok (response : Response) : bool :=
  bool_decide (200 ≤ status response ≤ 299).

(** [data.error] *)
Definition data_error (data : Body) : option string :=
  match data with
  | ErrorBody error => Some error
  | DuplicateBody error _ => Some error
  | _ => None
  end.

(** [apiRequest]: the parsed body of a 2xx answer; any other answer is
    thrown as an [Error] whose message is [data.error], or the status line
    when there is none or it is empty. *)
Definition apiRequest (x : fetched) : settled Body :=
  match x with
  | Answer response =>
      let data := json response in
      if negb (ok response) then
        Rejected
          match data_error data with
          | Some error =>
              if bool_decide (error = "")
              then "HTTP error! status: " +:+ pretty (status response)
              else error
          | None => "HTTP error! status: " +:+ pretty (status response)
          end
      else Resolved data
  | FetchFailed message => Rejected message
  | NoAnswer => Pending
  end.

(** [getStudents] and [confirmAttendance] against the server. *)
Definition getStudents (f : Fault) (w : World) : settled Body * World :=
  let '(x, w') := fetch (get_students f) w in (apiRequest x, w').

Definition confirmAttendance (attendanceData : gmap string value)
    (now_check now_insert : Z) (f_check f_insert : Fault) (w : World)
  : settled Body * World :=
  let '(x, w') :=
    fetch (post_attendance_confirm attendanceData now_check now_insert
             f_check f_insert) w in
  (apiRequest x, w').

(** [s.includes(sub)] *)
Fixpoint includes (s sub : string) : bool :=
  String.prefix sub s
  || match s with
     | EmptyString => false
     | String _ s' => includes s' sub
     end.

(** How [handleRecognizedAttendance] ends. *)
Inductive Recognition : Type :=
| NotAStudent                                  (* [if (!student) return] *)
| Marked (attendance : option Attendance.row)  (* [setLastAttendance], alert *)
| AlreadyRecorded                              (* logged, nothing shown *)
| Failed (message : string)                    (* [console.error] *)
| Hanging.                                     (* an await never settled *)

(** The [catch (err)] clause of [handleRecognizedAttendance]. *)
Definition recognition_failed (message : string) : Recognition :=
  if includes message "already recorded" then AlreadyRecorded
  else Failed message.

(** [parseFloat(confidence)] as JSON: a number, or [null] for NaN. *)
Definition json_number (x : option Qc) : value :=
  match x with
  | Some q => VNum q
  | None => VNull
  end.

(** [handleRecognizedAttendance(studentName, confidence)] with the room
    [roomId] of the component; [confidence] is what [parseFloat] made of
    the text. *)
Definition handleRecognizedAttendance (studentName : string)
    (confidence : option Qc) (roomId : string) (now_check now_insert : Z)
    (f_students f_check f_insert : Fault) (w : World)
  : Recognition * World :=
  match getStudents f_students w with
  | (Pending, w1) => (Hanging, w1)
  | (Rejected message, w1) => (recognition_failed message, w1)
  | (Resolved (StudentRows allStudents), w1) =>
      match
        List.find (λ s, bool_decide (Students.name s = studentName))
          allStudents
      with
      | None => (NotAStudent, w1)
      | Some student =>
          let attendanceData : gmap string value :=
            {[ "student_id" := VStr (Students.id student);
               "student_name" := VStr (Students.name student);
               "room_id" := VStr roomId;
               "confidence" := json_number confidence ]} in
          match
            confirmAttendance attendanceData now_check now_insert
              f_check f_insert w1
          with
          | (Pending, w2) => (Hanging, w2)
          | (Rejected message, w2) => (recognition_failed message, w2)
          | (Resolved (ConfirmedBody _ attendance), w2) =>
              (Marked attendance, w2)
          | (Resolved _, w2) => (Marked None, w2)
          end
      end
  | (Resolved _, w1) =>
      (recognition_failed "allStudents.find is not a function", w1)
  end.

(** [filters.k] is truthy: present and not the empty string. *)
Definition filter_set (filters : gmap string string) (k : string)
  : option string :=
  match filters !! k with
  | Some v => if bool_decide (v = "") then None else Some v
  | None => None
  end.

(** The [URLSearchParams] that [getAttendance] builds, as the list of the
    pairs appended. *)
Definition getAttendance_params (filters : gmap string string)
  : list (string * string) :=
  let queryParams := [] in
  let queryParams :=
    match filter_set filters "student_id" with
    | Some v => queryParams ++ [("student_id", v)]
    | None => queryParams
    end in
  let queryParams :=
    match filter_set filters "room_id" with
    | Some v => queryParams ++ [("room_id", v)]
    | None => queryParams
    end in
  match filter_set filters "date" with
  | Some v => queryParams ++ [("date", v)]
  | None => queryParams
  end.

(** [req.query] for a query string of pairs with distinct keys. *)
Definition req_query (params : list (string * string)) : gmap string value :=
  list_to_map ((λ kv, (kv.1, VStr kv.2)) <$> params).

(** [getAttendance(filters)] against the server. *)
Definition getAttendance (new_Date : value → option Z) (tz : Z)
    (filters : gmap string string) (f : Fault) (w : World)
  : settled Body * World :=
  let '(x, w') :=
    fetch (get_attendance new_Date tz
             (req_query (getAttendance_params filters)) f) w in
  (apiRequest x, w').

(** ** Grouping the descriptors by student ([loadAllDescriptors])

    One element of the array that [getAllFaceDescriptors] resolves with, as
    the grouping reads it: [desc.student_id] (as the property key it is
    used for), [desc.students.name] ([None] when [desc.students] is null)
    and [desc.descriptor]. *)
Record Described : Type := {
  desc_student_id : string;
  desc_students : option string;
  desc_descriptor : value
}.

(** [groupedByStudent] is a plain object used as a map: besides the keys
    it was given, it answers to the names that every object inherits from
    [Object.prototype], and what it answers there is truthy and has no
    [descriptors]. *)
Definition inherited : list string :=
  ["constructor"; "__proto__"; "hasOwnProperty"; "isPrototypeOf";
   "propertyIsEnumerable"; "toLocaleString"; "toString"; "valueOf";
   "__defineGetter__"; "__defineSetter__"; "__lookupGetter__";
   "__lookupSetter__"].

(** [Object.values(v)]: throws on [undefined] and [null]; a string has its
    characters, a number and a boolean nothing. *)
Definition Object_values (v : value) : option (list value) :=
  match v with
  | VUndefined | VNull => None
  | VBool _ | VNum _ | VInfinity _ => Some []
  | VStr s => Some ((λ c, VStr (String c EmptyString))
                      <$> String.list_ascii_of_string s)
  | VArr items => Some items
  | VObj members => Some (members.*2)
  end.

(** Whether [new Float32Array(Object.values(v))] returns: every value is
    converted to a number, which throws where the conversion to a
    primitive does. *)
Definition Float32Array_returns (v : value) : bool :=
  match Object_values v with
  | Some values => forallb stringifies values
  | None => false
  end.

Section grouping.
(** [new Float32Array(Object.values(d))], when it returns. *)
Context {D : Type} (Float32Array_of : value → D).

Record Group : Type := {
  group_name : string;
  group_id : string;
  group_descriptors : list D
}.

(** The body of the [forEach]; [None] when it throws: on reading
    [desc.students.name] of a descriptor without student, on pushing to
    the [descriptors] of what an inherited name answers, or on building
    the typed array. *)
Definition group_descriptor (groupedByStudent : gmap string Group)
    (desc : Described) : option (gmap string Group) :=
  let studentId := desc_student_id desc in
  let created :=
    match groupedByStudent !! studentId with
    | Some _ => Some groupedByStudent
    | None =>
        if bool_decide (studentId ∈ inherited) then Some groupedByStudent
        else
          match desc_students desc with
          | Some name =>
              Some (<[studentId := {| group_name := name;
                                      group_id := studentId;
                                      group_descriptors := [] |}]>
                      groupedByStudent)
          | None => None
          end
    end in
  match created with
  | Some grouped =>
      match grouped !! studentId with
      | Some _ =>
          if Float32Array_returns (desc_descriptor desc) then
            Some (alter
                    (λ g, {| group_name := group_name g;
                             group_id := group_id g;
                             group_descriptors :=
                               group_descriptors g
                               ++ [Float32Array_of (desc_descriptor desc)] |})
                    studentId grouped)
          else None
      | None => None
      end
  | None => None
  end.

Fixpoint forEach_group (groupedByStudent : gmap string Group)
    (descriptors : list Described) : option (gmap string Group) :=
  match descriptors with
  | [] => Some groupedByStudent
  | desc :: rest =>
      match group_descriptor groupedByStudent desc with
      | Some grouped => forEach_group grouped rest
      | None => None
      end
  end.

(** The grouping of [loadAllDescriptors]; [None] when it throws and the
    callback ends in its [catch] clause. *)
Definition groupedByStudent (descriptors : list Described)
  : option (gmap string Group) :=
  forEach_group ∅ descriptors.

(** The descriptors of student [id], in the order of the array. *)
Definition of_student (id : string) (descriptors : list Described)
  : list Described :=
  filter (λ desc, desc_student_id desc = id) descriptors.

(** What the groups are after the descriptors [seen]. *)
Definition grouped_as (grouped : gmap string Group) (seen : list Described)
  : Prop :=
  ∀ id,
    match grouped !! id with
    | None => of_student id seen = []
    | Some g =>
        group_id g = id
        ∧ group_descriptors g
          = (λ desc, Float32Array_of (desc_descriptor desc))
              <$> of_student id seen
        ∧ ∃ first,
            head (of_student id seen) = Some first
            ∧ desc_students first = Some (group_name g)
    end.

(** The object has no key of its own under an inherited name. *)
Definition no_inherited_key (grouped : gmap string Group) : Prop :=
  ∀ id, id ∈ inherited → grouped !! id = None.
End grouping.

(** A descriptor that the grouping cannot take: its student id is an
    inherited name, or its typed array cannot be built. *)
Definition unusable (desc : Described) : Prop :=
  desc_student_id desc ∈ inherited
  ∨ Float32Array_returns (desc_descriptor desc) = false.

(** A descriptor of one number. *)
Definition sample (n : Z) : value :=
  VArr [VNum (Q2Qc (QArith_base.Qmake n 1))].

(** Two photos of Bob, one of Alice; then a descriptor whose student is
    missing, one of a student called [constructor] and one without
    descriptor. *)
Definition described_bob (d : value) : Described :=
  {| desc_student_id := "S2"; desc_students := Some "Bob";
     desc_descriptor := d |}.

Definition described_alice (d : value) : Described :=
  {| desc_student_id := "S1"; desc_students := Some "Alice";
     desc_descriptor := d |}.

Definition orphan : Described :=
  {| desc_student_id := "S7"; desc_students := None;
     desc_descriptor := VArr [] |}.

Definition described_constructor : Described :=
  {| desc_student_id := "constructor"; desc_students := Some "Eve";
     desc_descriptor := VArr [] |}.

Definition undescribed : Described :=
  {| desc_student_id := "S3"; desc_students := Some "Carol";
     desc_descriptor := VNull |}.

(** * Properties *)

(** ** Values *)

Lemma falsy_values v :
  truthy v = false
  ↔ v = VUndefined ∨ v = VNull ∨ v = VBool false ∨ v = VNum 0%Qc
    ∨ v = VStr "".
Proof.
  split.
  - destruct v as [| |[]|q|?|s| |]; simpl;
      try (intros; auto 6; discriminate).
    + intros Hq%bool_decide_eq_false. right; right; right; left.
      f_equal. by destruct (decide (q = 0%Qc)).
    + intros Hs%bool_decide_eq_false. do 4 right.
      f_equal. by destruct (decide (s = "")).
  - intros [-> | [-> | [-> | [-> | ->]]]]; reflexivity.
Qed.

(** ** The query builder *)

Section query_facts.
Context {R : Type}.
Implicit Types (q : Supabase.Query R) (rows : list R) (r : R).

Lemma matches_select_all r : Supabase.matches (@Supabase.select_all R) r = true.
Proof. reflexivity. Qed.

Lemma matches_where c q r :
  Supabase.matches (Supabase.where_ c q) r = Supabase.matches q r && c r.
Proof.
  unfold Supabase.matches, Supabase.where_; simpl.
  rewrite forallb_app; simpl. by rewrite andb_true_r.
Qed.

Lemma matches_order le q r :
  Supabase.matches (Supabase.order le q) r = Supabase.matches q r.
Proof. reflexivity. Qed.

Lemma matches_limit n q r :
  Supabase.matches (Supabase.limit n q) r = Supabase.matches q r.
Proof. reflexivity. Qed.

Lemma matches_eq `{EqDecision C} (col : R → C) v q r :
  Supabase.matches (Supabase.eq col v q) r
  = Supabase.matches q r && bool_decide (col r = v).
Proof. apply matches_where. Qed.

Lemma matches_gte col t q r :
  Supabase.matches (Supabase.gte col t q) r
  = Supabase.matches q r && bool_decide (t ≤ col r).
Proof. apply matches_where. Qed.

Lemma matches_lte col t q r :
  Supabase.matches (Supabase.lte col t q) r
  = Supabase.matches q r && bool_decide (col r ≤ t).
Proof. apply matches_where. Qed.

(** Without [.limit], the result is a rearrangement of the rows that
    satisfy the conditions. *)
Lemma execute_Permutation q rows :
  Supabase.lim q = None →
  Supabase.execute q rows ≡ₚ filter (λ r, Supabase.matches q r) rows.
Proof.
  intros Hlim. unfold Supabase.execute. rewrite Hlim.
  destruct (Supabase.ordering q); [apply merge_sort_Permutation | done].
Qed.

(** With [.order(le)] and no [.limit], the result is sorted by [le]. *)
Lemma execute_Sorted q le rows :
  Supabase.lim q = None →
  Supabase.ordering q = Some le →
  Total (λ a b : R, Is_true (le a b)) →
  Sorted (λ a b, le a b) (Supabase.execute q rows).
Proof.
  intros Hlim Hord Htot. unfold Supabase.execute. rewrite Hlim, Hord.
  by apply Sorted_merge_sort.
Qed.

(** Whatever the query, a returned row is a stored row that satisfies the
    conditions. *)
Lemma elem_of_execute q rows r :
  r ∈ Supabase.execute q rows → r ∈ rows ∧ Supabase.matches q r = true.
Proof.
  unfold Supabase.execute. intros Hin.
  assert (r ∈ filter (λ r, Supabase.matches q r) rows) as Hf.
  { destruct (Supabase.ordering q) as [le|], (Supabase.lim q) as [n|];
      try apply elem_of_take in Hin as (i & Hin%list_elem_of_lookup_2 & _);
      try (by rewrite merge_sort_Permutation in Hin); done. }
  apply list_elem_of_filter in Hf as [Hm ?]. split; [done|].
  by apply Is_true_true.
Qed.


Lemma execute_first_cons q le rows r :
  Supabase.ordering q = Some le →
  Supabase.lim q = Some 1%nat →
  Total (λ a b : R, Is_true (le a b)) →
  Transitive (λ a b : R, Is_true (le a b)) →
  r ∈ rows → Supabase.matches q r = true →
  ∃ top,
    Supabase.execute q rows = [top] ∧ top ∈ rows
    ∧ Supabase.matches q top = true
    ∧ ∀ r', r' ∈ rows → Supabase.matches q r' = true → le top r' = true.
Proof.
  intros Hord Hlim Htot Htrans Hin Hm.
  unfold Supabase.execute. rewrite Hord, Hlim.
  set (kept := filter (λ r, Supabase.matches q r) rows).
  assert (∀ x, x ∈ kept ↔ Supabase.matches q x = true ∧ x ∈ rows) as Hkept.
  { intros x. unfold kept. rewrite list_elem_of_filter.
    by rewrite Is_true_true. }
  pose proof (merge_sort_Permutation (λ a b, le a b) kept) as Hperm.
  pose proof (StronglySorted_merge_sort (λ a b, le a b) kept) as Hsorted.
  destruct (merge_sort (λ a b, le a b) kept) as [|top rest] eqn:Hsort.
  { apply Permutation_nil_l in Hperm.
    assert (r ∈ kept) as Hr by by apply Hkept.
    rewrite <- Hperm in Hr. by apply elem_of_nil in Hr. }
  exists top. simpl. rewrite take_0.
  assert (top ∈ kept) as [Htop ?]%Hkept.
  { rewrite <- Hperm. apply list_elem_of_here. }
  repeat split; [done..|].
  intros r' Hin' Hm'.
  assert (r' ∈ top :: rest) as Hr'.
  { rewrite Hperm. by apply Hkept. }
  apply Is_true_true.
  apply elem_of_cons in Hr' as [->|Hr'].
  - by destruct (Htot top top).
  - apply StronglySorted_inv in Hsorted as [_ Hall].
    by eapply Forall_forall in Hall.
Qed.
End query_facts.

(** The two orderings used by the handlers are total and transitive. *)
Global Instance descending_total {R} (col : R → Z) :
  Total (λ a b : R, Is_true (Supabase.descending col a b)).
Proof.
  intros a b. unfold Supabase.descending. rewrite !bool_decide_spec.
  destruct (total Z.le (col a) (col b)); auto.
Qed.

Global Instance descending_trans {R} (col : R → Z) :
  Transitive (λ a b : R, Is_true (Supabase.descending col a b)).
Proof.
  intros a b c. unfold Supabase.descending. rewrite !bool_decide_spec. lia.
Qed.

Global Instance ascending_total {R} (col : R → string) :
  Total (λ a b : R, Is_true (Supabase.ascending col a b)).
Proof.
  intros a b. unfold Supabase.ascending. rewrite !bool_decide_spec.
  apply (total String.le).
Qed.

Global Instance ascending_trans {R} (col : R → string) :
  Transitive (λ a b : R, Is_true (Supabase.ascending col a b)).
Proof.
  intros a b c. unfold Supabase.ascending. rewrite !bool_decide_spec.
  apply (transitivity (R := String.le)).
Qed.

(** ** Attendance confirmation *)

Lemma matches_recent_attendance student_id room_id since r :
  Supabase.matches (recent_attendance student_id room_id since) r = true
  ↔ recent student_id room_id since r.
Proof.
  unfold recent_attendance, recent.
  rewrite matches_limit, matches_order, matches_gte, !matches_eq,
    matches_select_all.
  rewrite !andb_true_iff, !bool_decide_eq_true. tauto.
Qed.

(** Values that are stored as they were sent. *)
Lemma stored_as_sent_VStr s : stored_as_sent (VStr s).
Proof. reflexivity. Qed.

Lemma stored_as_sent_VNum q : stored_as_sent (VNum q).
Proof. reflexivity. Qed.

(** The log entry of a confirmation. *)
Lemma logged_returns body :
  logs body = true →
  (if truthy (field body "confidence")
   then template_literal (field body "confidence") else ret ()) = ret ().
Proof.
  unfold logs, template_literal. intros Hlogs.
  destruct (truthy (field body "confidence")); [|done].
  simpl in Hlogs. by rewrite Hlogs.
Qed.

Lemma logged_raises body :
  logs body = false →
  (if truthy (field body "confidence")
   then template_literal (field body "confidence") else ret ())
  = @raise unit.
Proof.
  unfold logs, template_literal. intros Hlogs.
  destruct (truthy (field body "confidence")); [|done].
  simpl in Hlogs. by rewrite Hlogs.
Qed.

Lemma logs_falsy body :
  truthy (field body "confidence") = false → logs body = true.
Proof. unfold logs. by intros ->. Qed.

Section confirm_cases.
Variables (body : gmap string value) (now_check now_insert : Z).
Variables (f_check f_insert : Fault) (w : World).

Let run :=
  post_attendance_confirm body now_check now_insert f_check f_insert w.

Lemma confirm_log_throws :
  logs body = false → run = (Returned server_error, w).
Proof.
  unfold run, post_attendance_confirm, try_catch. intros Hlogs.
  by rewrite logged_raises.
Qed.

Lemma confirm_invalid :
  logs body = true → valid body = false → run = (Returned missing_fields, w).
Proof.
  unfold run, valid, post_attendance_confirm, try_catch. intros Hlogs Hv.
  rewrite logged_returns by done.
  rewrite <- !negb_andb, Hv. reflexivity.
Qed.

Lemma confirm_check_throws :
  logs body = true → valid body = true → f_check = Throws →
  run = (Returned server_error, log (Select "attendance") w).
Proof.
  unfold run, valid, post_attendance_confirm, try_catch. intros Hlogs Hv ->.
  rewrite logged_returns by done.
  rewrite <- !negb_andb, Hv. reflexivity.
Qed.

Lemma confirm_duplicate last rest :
  logs body = true → valid body = true → f_check = Healthy →
  Supabase.execute
    (recent_attendance (field body "student_id") (field body "room_id")
       (now_check - 5 * 60 * 1000)) (attendance w) = last :: rest →
  run = (Returned (duplicate last), log (Select "attendance") w).
Proof.
  unfold run, valid, post_attendance_confirm, try_catch.
  intros Hlogs Hv -> Hfound.
  rewrite logged_returns by done.
  rewrite <- !negb_andb, Hv. simpl.
  unfold bind, await, select_attendance, round_trip. simpl.
  rewrite Hfound. reflexivity.
Qed.

Lemma confirm_insert :
  logs body = true → valid body = true →
  reaches_insert body now_check f_check w →
  run =
    let w1 := log (Insert "attendance") (log (Select "attendance") w) in
    match f_insert with
    | Healthy =>
        let r := confirmed_row body now_insert (attendance w) in
        (Returned (confirmed r), appended r w1)
    | Fails message => (Returned (storage_error message), w1)
    | Throws => (Returned server_error, w1)
    end.
Proof.
  unfold run, valid, post_attendance_confirm, try_catch.
  intros Hlogs Hv Hreach.
  rewrite logged_returns by done.
  rewrite <- !negb_andb, Hv. simpl.
  unfold bind, await, select_attendance, round_trip. simpl.
  destruct Hreach as [[-> Hnone]|[message ->]]; simpl;
    [rewrite Hnone|];
    unfold bind, insert_attendance, round_trip;
    destruct f_insert; reflexivity.
Qed.
End confirm_cases.

Lemma post_attendance_confirm_run body now_check now_insert f_check f_insert w :
  confirm_run body now_check now_insert f_check f_insert w
    (post_attendance_confirm body now_check now_insert f_check f_insert w).
Proof.
  destruct (logs body) eqn:Hlogs.
  2: { rewrite confirm_log_throws by done. by constructor. }
  destruct (valid body) eqn:Hv.
  2: { rewrite confirm_invalid by done. by constructor. }
  assert (reaches_insert body now_check f_check w →
          confirm_run body now_check now_insert f_check f_insert w
            (post_attendance_confirm body now_check now_insert
               f_check f_insert w)) as Hins.
  { intros Hreach. rewrite confirm_insert by done.
    destruct f_insert eqn:Hf; simpl.
    - by apply run_inserted.
    - by apply run_insert_fails.
    - by apply run_insert_throws. }
  destruct f_check as [|message|] eqn:Hf.
  - destruct (Supabase.execute
                (recent_attendance (field body "student_id")
                   (field body "room_id") (now_check - 5 * 60 * 1000))
                (attendance w)) as [|last rest] eqn:Hfound.
    + apply Hins. by left.
    + rewrite (confirm_duplicate _ _ _ _ _ _ last rest) by done.
      by eapply run_duplicate.
  - apply Hins. right. by exists message.
  - rewrite confirm_check_throws by done. by constructor.
Qed.


Lemma recent_attendance_cons student_id room_id since ledger r :
  r ∈ ledger → recent student_id room_id since r →
  ∃ last,
    Supabase.execute (recent_attendance student_id room_id since) ledger
    = [last]
    ∧ last ∈ ledger ∧ recent student_id room_id since last
    ∧ ∀ r', r' ∈ ledger → recent student_id room_id since r' →
            Attendance.timestamp r' ≤ Attendance.timestamp last.
Proof.
  intros Hin Hrecent.
  destruct (execute_first_cons
              (recent_attendance student_id room_id since)
              (Supabase.descending Attendance.timestamp) ledger r)
    as (last & Hexec & Hlast & Hm & Htop);
    [done | done | apply _ | apply _ | done
    | by apply matches_recent_attendance |].
  exists last. split_and!; [done | done | by apply matches_recent_attendance|].
  intros r' Hin' Hr'.
  specialize (Htop r' Hin'). rewrite matches_recent_attendance in Htop.
  specialize (Htop Hr'). unfold Supabase.descending in Htop.
  by apply bool_decide_eq_true in Htop.
Qed.

(** A confirmation never removes or rewrites a row, and adds at most one. *)
Lemma confirm_run_ledger body now_check now_insert f_check f_insert w res :
  confirm_run body now_check now_insert f_check f_insert w res →
  students res.2 = students w
  ∧ (attendance res.2 = attendance w
     ∨ (res.1 = Returned (confirmed (confirmed_row body now_insert (attendance w)))
        ∧ attendance res.2
          = attendance w ++ [confirmed_row body now_insert (attendance w)]
        ∧ valid body = true ∧ f_insert = Healthy)).
Proof. destruct 1; simpl; auto 10. Qed.







(** C3 (amended).  For a valid request that can be logged (its
    [confidence] is falsy or converts to a string): a write that the store
    rejects, or a storage call that throws, ends in a 500 with no row
    inserted; an error result of the duplicate check is not surfaced, the
    handler goes on to the insert; and there is no retry, the handler
    issues one read and at most one write. *)
Theorem confirm_storage_failures
    (body : gmap string value) (now_check now_insert : Z)
    (f_check f_insert : Fault) (w : World) :
  valid body = true →
  logs body = true →
  let run :=
    post_attendance_confirm body now_check now_insert f_check f_insert w in
  (* the check throws *)
  (f_check = Throws →
     run = (Returned {| status := 500;
                        json := ErrorBody "Internal server error" |},
            log (Select "attendance") w))
  (* the write is rejected *)
  ∧ (∀ message, f_insert = Fails message →
       attendance run.2 = attendance w
       ∧ (reaches_insert body now_check f_check w →
          run = (Returned {| status := 500; json := ErrorBody message |},
                 log (Insert "attendance") (log (Select "attendance") w))))
  (* the write throws *)
  ∧ (f_insert = Throws →
       attendance run.2 = attendance w
       ∧ (reaches_insert body now_check f_check w →
          run = (Returned {| status := 500;
                             json := ErrorBody "Internal server error" |},
                 log (Insert "attendance") (log (Select "attendance") w))))
  (* the check resolves with an error: on to the insert *)
  ∧ (∀ message, f_check = Fails message →
       reaches_insert body now_check f_check w
       ∧ (f_insert = Healthy →
          run = (Returned
                   {| status := 201;
                      json := ConfirmedBody "Attendance confirmed successfully"
                                (Some (confirmed_row body now_insert
                                         (attendance w))) |},
                 appended (confirmed_row body now_insert (attendance w))
                   (log (Insert "attendance")
                      (log (Select "attendance") w)))))
  (* no retry *)
  ∧ (calls run.2 = calls w ++ [Select "attendance"]
     ∨ calls run.2 = calls w ++ [Select "attendance"; Insert "attendance"]).
Proof.
  intros Hv Hlogs run.
  pose proof (post_attendance_confirm_run body now_check now_insert
                f_check f_insert w) as Hrun. fold run in Hrun.
  split_and!.
  - intros ->. unfold run. by rewrite confirm_check_throws.
  - intros message ->. split.
    + apply confirm_run_ledger in Hrun as [_ [?|(_ & _ & _ & ?)]]; done.
    + intros Hreach. unfold run. by rewrite confirm_insert.
  - intros ->. split.
    + apply confirm_run_ledger in Hrun as [_ [?|(_ & _ & _ & ?)]]; done.
    + intros Hreach. unfold run. by rewrite confirm_insert.
  - intros message ->.
    assert (reaches_insert body now_check (Fails message) w) as Hreach.
    { right. by exists message. }
    split; [done|]. intros ->. unfold run. by rewrite confirm_insert.
  - destruct Hrun; simpl; rewrite <- ?app_assoc; auto; congruence.
Qed.

Lemma confirm_storage_failures_witness :
  post_attendance_confirm alice 1000 1001 Throws Healthy empty_world
  = (Returned server_error, log (Select "attendance") empty_world)
  ∧ post_attendance_confirm alice 1000 1001 Healthy (Fails "write rejected")
      empty_world
    = (Returned (storage_error "write rejected"),
       log (Insert "attendance") (log (Select "attendance") empty_world)).
Proof.
  split.
  - destruct (confirm_storage_failures alice 1000 1001 Throws Healthy
                empty_world) as (Hthrows & _); [reflexivity | reflexivity |].
    apply Hthrows. reflexivity.
  - destruct (confirm_storage_failures alice 1000 1001 Healthy
                (Fails "write rejected") empty_world)
      as (_ & Hfails & _); [reflexivity | reflexivity |].
    destruct (Hfails "write rejected") as [_ Hrun]; [reflexivity|].
    apply Hrun. left. split; reflexivity.
Defined.

(** C3, as stated, fails when the duplicate check comes back with an error:
    the request is answered 201 and a row is inserted, here even though the
    ledger holds a row of the same student and room stamped one second
    earlier. *)
Lemma confirm_inserts_when_check_fails :
  let run :=
    post_attendance_confirm alice 1000 1001 (Fails "connection refused")
      Healthy stale_world in
  run.1 = Returned {| status := 201;
                      json := ConfirmedBody "Attendance confirmed successfully"
                                (Some (confirmed_row alice 1001
                                         (attendance stale_world))) |}
  ∧ attendance run.2
    = attendance stale_world
      ++ [confirmed_row alice 1001 (attendance stale_world)].
Proof. vm_compute. split; reflexivity. Qed.

Lemma missing_or_empty_falsy body k :
  missing_or_empty body k → truthy (field body k) = false.
Proof. unfold field. by intros [-> | ->]. Qed.

(** A request that can be logged and has a falsy required field is
    answered 400, whatever the store holds and however it behaves, and
    nothing is touched. *)
Lemma confirm_rejects_falsy body now_check now_insert f_check f_insert w :
  logs body = true →
  truthy (field body "student_id") = false
  ∨ truthy (field body "student_name") = false
  ∨ truthy (field body "room_id") = false →
  post_attendance_confirm body now_check now_insert f_check f_insert w
  = (Returned missing_fields, w).
Proof.
  intros Hlogs H. apply confirm_invalid; [done|]. unfold valid.
  destruct H as [-> | [-> | ->]]; by rewrite ?andb_false_r.
Qed.

(** Where the request can be logged, a confirmation request in which
    [student_id], [student_name] or [room_id] is missing or empty is
    answered 400 with an error message, whatever the state and the
    behaviour of the store. *)
Lemma confirm_missing_field_400
    (body : gmap string value) (now_check now_insert : Z)
    (f_check f_insert : Fault) (w : World) :
  logs body = true →
  missing_or_empty body "student_id"
  ∨ missing_or_empty body "student_name"
  ∨ missing_or_empty body "room_id" →
  post_attendance_confirm body now_check now_insert f_check f_insert w
  = (Returned
       {| status := 400;
          json := ErrorBody
                    "Missing required fields: student_id, student_name, room_id" |},
     w).
Proof.
  intros Hlogs H. apply confirm_rejects_falsy; [done|].
  destruct H as [H | [H | H]]; apply missing_or_empty_falsy in H; auto.
Qed.

(** C4, as stated, fails on a request that cannot be logged: with
    [room_id] omitted and a [confidence] that is an object with a member
    [toString], the template literal of the log entry throws before the
    validation is reached, and the answer is 500 "Internal server error"
    instead of 400.  The same request without [confidence] is answered
    400. *)
Theorem confirm_missing_field_answers_500 :
  missing_or_empty unprintable "room_id"
  ∧ truthy (field unprintable "confidence") = true
  ∧ stringifies (field unprintable "confidence") = false
  ∧ post_attendance_confirm unprintable 1000 1001 Healthy Healthy stale_world
    = (Returned {| status := 500;
                   json := ErrorBody "Internal server error" |},
       stale_world)
  ∧ post_attendance_confirm no_room 1000 1001 Healthy Healthy stale_world
    = (Returned
         {| status := 400;
            json := ErrorBody
                      "Missing required fields: student_id, student_name, room_id" |},
       stale_world).
Proof.
  split; [by left|]. split; [reflexivity|]. split; [reflexivity|].
  split.
  - by apply confirm_log_throws.
  - apply confirm_missing_field_400; [reflexivity|].
    right. right. by left.
Qed.

(** C9.  When the [confidence] of the request is falsy, a row that the
    request adds to the ledger carries [confidence = null]. *)
Theorem confirm_falsy_confidence_is_null
    (body : gmap string value) (now_check now_insert : Z)
    (f_check f_insert : Fault) (w : World) :
  truthy (field body "confidence") = false →
  let run :=
    post_attendance_confirm body now_check now_insert f_check f_insert w in
  attendance run.2 = attendance w
  ∨ ∃ r, attendance run.2 = attendance w ++ [r]
         ∧ run.1 = Returned {| status := 201;
                               json := ConfirmedBody
                                         "Attendance confirmed successfully"
                                         (Some r) |}
         ∧ Attendance.confidence r = VNull.
Proof.
  intros Hfalsy run.
  pose proof (post_attendance_confirm_run body now_check now_insert
                f_check f_insert w) as Hrun. fold run in Hrun.
  apply confirm_run_ledger in Hrun as [_ [?|(Hres & Hledger & _)]]; [by left|].
  right. eexists. split_and!; [done..|].
  simpl. unfold js_or. by rewrite Hfalsy.
Qed.

Lemma confirm_falsy_confidence_is_null_witness :
  field zero_confidence "confidence" = VNum 0%Qc
  ∧ ∃ r,
      attendance
        (post_attendance_confirm zero_confidence 1000 1001 Healthy Healthy
           empty_world).2 = [r]
      ∧ Attendance.confidence r = VNull.
Proof.
  split; [reflexivity|].
  destruct (confirm_falsy_confidence_is_null zero_confidence 1000 1001
              Healthy Healthy empty_world)
    as [Hsame | (r & Hledger & _ & Hnull)]; [reflexivity | |].
  - vm_compute in Hsame. discriminate Hsame.
  - exists r. split; [exact Hledger | exact Hnull].
Defined.

(** C10.  A confirmation answered 400 made no round trip to the store and
    left it as it was. *)
Theorem confirm_400_touches_nothing
    (body : gmap string value) (now_check now_insert : Z)
    (f_check f_insert : Fault) (w w' : World) (resp : Response) :
  post_attendance_confirm body now_check now_insert f_check f_insert w
  = (Returned resp, w') →
  status resp = 400 →
  w' = w ∧ calls w' = calls w ∧ attendance w' = attendance w
  ∧ students w' = students w.
Proof.
  intros Hrun Hstatus.
  pose proof (post_attendance_confirm_run body now_check now_insert
                f_check f_insert w) as Hcase.
  rewrite Hrun in Hcase.
  assert (w' = w) as ->; [|done].
  inversion Hcase; subst; simpl in Hstatus; done.
Qed.

Lemma confirm_400_touches_nothing_witness :
  let run :=
    post_attendance_confirm no_room 1000 1001 Healthy Healthy stale_world in
  run.1 = Returned missing_fields ∧ run.2 = stale_world.
Proof.
  intros run. split; [reflexivity|].
  destruct (confirm_400_touches_nothing no_room 1000 1001 Healthy Healthy
              stale_world run.2 missing_fields) as [Hsame _];
    [reflexivity | reflexivity | exact Hsame].
Defined.

(** ** The training flag *)

Lemma matches_id id s :
  Supabase.matches (Supabase.eq Students.id id Supabase.select_all) s
  = bool_decide (Students.id s = id).
Proof. by rewrite matches_eq, matches_select_all. Qed.

Lemma post_students_trained_healthy id w :
  post_students_trained id Healthy w
  = (Returned
       {| status := 200;
          json := TrainedBody "Student marked as trained"
                    (head (set_trained
                             <$> filter (λ s, Students.id s = id)
                                   (students w))) |},
     {| students := mark id <$> students w; attendance := attendance w;
        calls := calls w ++ [Update "students"] |}).
Proof.
  unfold post_students_trained, try_catch, bind, await,
    update_students_trained, round_trip. simpl.
  rewrite (list_filter_iff _ (λ s, Students.id s = id)).
  2: { intros s. by rewrite matches_id, bool_decide_spec. }
  rewrite (list_fmap_ext _ (mark id) (students w)); [done|].
  intros _ s _. unfold mark. by rewrite matches_id.
Qed.

Lemma mark_id id s : Students.id (mark id s) = Students.id s.
Proof. unfold mark. by case_bool_decide. Qed.

Lemma mark_idemp id s : mark id (mark id s) = mark id s.
Proof. unfold mark. by repeat (case_bool_decide; simpl in *). Qed.

Lemma mark_updated id (l : list Students.row) :
  set_trained <$> filter (λ s, Students.id s = id) (mark id <$> l)
  = set_trained <$> filter (λ s, Students.id s = id) l.
Proof.
  induction l as [|s l IH]; [done|].
  rewrite fmap_cons, !filter_cons, mark_id.
  destruct (decide (Students.id s = id)) as [Hid|Hid]; [|done].
  rewrite !fmap_cons, IH. f_equal.
  unfold mark. by rewrite bool_decide_eq_true_2 by done.
Qed.


(** C6.  One call leaves the table with the same rows in the same order,
    the rows of the id trained and the others untouched, and answers 200
    with the first of the rows it marked.  A second call is a success that
    changes nothing: the tables are as the first call left them, every
    student of the id is trained, and the answer is that of the first
    call. *)
Theorem markTrained_idempotent (id : string) (w : World) :
  let once := post_students_trained id Healthy w in
  let twice := post_students_trained id Healthy once.2 in
  let trained s :=
    {| Students.id := Students.id s; Students.name := Students.name s;
       Students.email := Students.email s; Students.is_trained := true |} in
  length (students once.2) = length (students w)
  ∧ (∀ (i : nat) (s : Students.row),
       students w !! i = Some s →
       students once.2 !! i
       = Some (if decide (Students.id s = id) then trained s else s))
  ∧ attendance once.2 = attendance w
  ∧ students twice.2 = students once.2
  ∧ attendance twice.2 = attendance once.2
  ∧ calls twice.2 = calls w ++ [Update "students"; Update "students"]
  ∧ (∀ s, s ∈ students w → Students.id s = id →
          trained s ∈ students twice.2)
  ∧ (∀ s, s ∈ students twice.2 → Students.id s = id →
          Students.is_trained s = true)
  ∧ once.1
    = Returned
        {| status := 200;
           json := TrainedBody "Student marked as trained"
                     (trained
                        <$> head (filter (λ s, Students.id s = id)
                                    (students w))) |}
  ∧ twice.1 = once.1.
Proof.
  intros once twice trained. unfold twice, once.
  rewrite !post_students_trained_healthy. simpl.
  assert (students
            (post_students_trained id Healthy
               {| students := mark id <$> students w;
                  attendance := attendance w;
                  calls := calls w ++ [Update "students"] |}).2
          = mark id <$> students w) as Htwice.
  { rewrite post_students_trained_healthy. simpl.
    rewrite <- list_fmap_compose. apply list_fmap_ext.
    intros _ s _. apply mark_idemp. }
  split_and!.
  - by rewrite length_fmap.
  - intros i s Hs. rewrite list_lookup_fmap, Hs. simpl. f_equal.
    unfold mark. destruct (decide (Students.id s = id)).
    + by rewrite bool_decide_eq_true_2.
    + by rewrite bool_decide_eq_false_2.
  - done.
  - rewrite <- list_fmap_compose. apply list_fmap_ext.
    intros _ s _. apply mark_idemp.
  - done.
  - by rewrite <- app_assoc.
  - intros s Hs Hid. rewrite <- list_fmap_compose.
    apply list_elem_of_fmap. exists s. split; [|done]. simpl.
    rewrite mark_idemp. unfold mark. by rewrite bool_decide_eq_true_2.
  - intros s (s1 & -> & (s0 & -> & _)%list_elem_of_fmap)%list_elem_of_fmap.
    rewrite mark_idemp. unfold mark. by case_bool_decide.
  - do 3 f_equal. by destruct (filter _ (students w)).
  - by rewrite mark_updated.
Qed.

(** ** The query surfaces *)

Lemma Sorted_weaken {A} (R1 R2 : relation A) l :
  (∀ a b, R1 a b → R2 a b) → Sorted R1 l → Sorted R2 l.
Proof.
  intros Himp. induction 1 as [|a l _ IH Hhd]; constructor; [done|].
  destruct Hhd; constructor; auto.
Qed.

Lemma execute_newest_first (q : Supabase.Query Attendance.row) rows :
  Supabase.lim q = None →
  Supabase.ordering q = Some (Supabase.descending Attendance.timestamp) →
  newest_first (Supabase.execute q rows).
Proof.
  intros Hlim Hord.
  eapply Sorted_weaken; [|by apply (execute_Sorted q _ rows Hlim Hord), _].
  intros a b. unfold Supabase.descending. by rewrite bool_decide_spec.
Qed.

Lemma execute_by_name (q : Supabase.Query Students.row) rows :
  Supabase.lim q = None →
  Supabase.ordering q = Some (Supabase.ascending Students.name) →
  by_name (Supabase.execute q rows).
Proof.
  intros Hlim Hord.
  eapply Sorted_weaken; [|by apply (execute_Sorted q _ rows Hlim Hord), _].
  intros a b. unfold Supabase.ascending. by rewrite bool_decide_spec.
Qed.



Lemma setHours_start tz t :
  setHours tz 0 0 0 0 (Some t) = Some (startOfDay tz t).
Proof. unfold setHours, startOfDay. f_equal. lia. Qed.

Lemma setHours_end tz t :
  setHours tz 23 59 59 999 (Some t) = Some (endOfDay tz t).
Proof. unfold setHours, endOfDay, startOfDay. f_equal. lia. Qed.

Section attendance_query_facts.
Variable new_Date : value → option Z.
Variable tz : Z.
Variables (query : gmap string value) (w : World).

(** A healthy store answers a well-formed query with the selected rows,
    newest first. *)
Lemma get_attendance_healthy :
  (truthy (field query "date") = true →
   is_Some (new_Date (field query "date"))) →
  ∃ rows,
    get_attendance new_Date tz query Healthy w
    = (Returned {| status := 200; json := AttendanceRows rows |},
       log (Select "attendance") w)
    ∧ rows ≡ₚ filter (λ r, selected new_Date tz query r) (attendance w)
    ∧ newest_first rows.
Proof.
  intros Hdate.
  assert (∃ q,
    get_attendance new_Date tz query Healthy w
    = (Returned {| status := 200;
                   json := AttendanceRows
                             (Supabase.execute q (attendance w)) |},
       log (Select "attendance") w)
    ∧ Supabase.lim q = None
    ∧ Supabase.ordering q
      = Some (Supabase.descending Attendance.timestamp)
    ∧ ∀ r, Supabase.matches q r = selected new_Date tz query r)
    as (q & Hrun & Hlim & Hord & Hsel).
  { unfold get_attendance, selected, try_catch.
    destruct (truthy (field query "date")) eqn:Hd.
    - destruct Hdate as [t Ht]; [done|]. rewrite Ht.
      rewrite setHours_start, setHours_end. simpl.
      eexists. split; [reflexivity|]. split_and!.
      + by repeat case_match.
      + by repeat case_match.
      + intros r. repeat case_match;
          rewrite ?matches_lte, ?matches_gte, ?matches_eq, ?matches_order,
            ?matches_select_all; simpl;
          repeat case_bool_decide; simpl; try done; lia.
    - simpl. eexists. split; [reflexivity|]. split_and!.
      + by repeat case_match.
      + by repeat case_match.
      + intros r. repeat case_match;
          rewrite ?matches_eq, ?matches_order, ?matches_select_all; simpl;
          by rewrite ?andb_true_r. }
  eexists. split; [exact Hrun|]. split.
  - rewrite execute_Permutation by done.
    erewrite list_filter_iff; [done|].
    intros r. by rewrite Hsel.
  - by apply execute_newest_first.
Qed.

(** A supplied date that does not parse ends in the [catch] clause, before
    any round trip. *)
Lemma get_attendance_invalid_date f :
  truthy (field query "date") = true →
  new_Date (field query "date") = None →
  get_attendance new_Date tz query f w = (Returned server_error, w).
Proof.
  intros Hd Hnone. unfold get_attendance, try_catch. by rewrite Hd, Hnone.
Qed.
End attendance_query_facts.

Lemma filter_all {A} (P : A → Prop) `{∀ x, Decision (P x)} (l : list A) :
  (∀ x, P x) → filter P l = l.
Proof.
  intros HP. induction l as [|x l IH]; [done|].
  by rewrite filter_cons_True, IH.
Qed.

Lemma get_students_healthy w :
  ∃ rows,
    get_students Healthy w
    = (Returned {| status := 200; json := StudentRows rows |},
       log (Select "students") w)
    ∧ rows ≡ₚ students w ∧ by_name rows.
Proof.
  exists (Supabase.execute
            (Supabase.order (Supabase.ascending Students.name)
               Supabase.select_all) (students w)).
  split; [reflexivity|]. split.
  - rewrite execute_Permutation by done. by rewrite filter_all.
  - by apply execute_by_name.
Qed.

Lemma get_students_untrained_healthy w :
  ∃ rows,
    get_students_untrained Healthy w
    = (Returned {| status := 200; json := StudentRows rows |},
       log (Select "students") w)
    ∧ rows ≡ₚ filter (λ s, Students.is_trained s = false) (students w)
    ∧ by_name rows.
Proof.
  exists (Supabase.execute
            (Supabase.order (Supabase.ascending Students.name)
               (Supabase.eq Students.is_trained false Supabase.select_all))
            (students w)).
  split; [reflexivity|]. split.
  - rewrite execute_Permutation by done.
    erewrite list_filter_iff; [done|]. intros s.
    rewrite matches_order, matches_eq, matches_select_all. simpl.
    by rewrite bool_decide_spec.
  - by apply execute_by_name.
Qed.



(** With local time aligned to UTC, a date that denotes midnight UTC of
    day [day] restricts the result to the rows stamped within
    [[day 00:00:00.000, day 23:59:59.999]], bounds included: a row is
    returned exactly when it is stored, satisfies the other supplied filters
    and is stamped within that range. *)
Lemma attendance_of_a_day
    (new_Date : value → option Z) (query : gmap string value)
    (w : World) (day : Z) :
  truthy (field query "date") = true →
  new_Date (field query "date") = Some (day * msPerDay) →
  ∃ rows,
    get_attendance new_Date 0 query Healthy w
    = (Returned {| status := 200; json := AttendanceRows rows |},
       log (Select "attendance") w)
    ∧ rows ≡ₚ
        filter
          (λ r,
             (truthy (field query "student_id") = true →
              Attendance.student_id r = field query "student_id")
             ∧ (truthy (field query "room_id") = true →
                Attendance.room_id r = field query "room_id")
             ∧ day * msPerDay ≤ Attendance.timestamp r
               ≤ day * msPerDay + 86399999)
          (attendance w).
Proof.
  intros Hd Ht.
  destruct (get_attendance_healthy new_Date 0 query w)
    as (rows & Hrun & Hperm & _).
  { intros _. by rewrite Ht. }
  exists rows. split; [done|]. rewrite Hperm.
  erewrite list_filter_iff; [done|]. intros r.
  unfold selected. rewrite Hd, Ht.
  unfold endOfDay, startOfDay.
  replace ((day * msPerDay + 0) `div` msPerDay * msPerDay - 0)
    with (day * msPerDay).
  2: { rewrite Z.add_0_r, Z.div_mul by done. lia. }
  repeat case_match; rewrite ?andb_true_l, ?Is_true_true, ?andb_true_iff,
    ?bool_decide_eq_true; intuition congruence.
Qed.

(** The example of the specification: of two rows stamped
    2024-01-10T23:59:00Z and 2024-01-11T00:01:00Z, the query for
    [date=2024-01-10] returns the first only. *)
Lemma attendance_of_a_day_witness :
  new_Date_iso (VStr "2024-01-10") = Some (Date_UTC 2024 1 10 0 0 0 0)
  ∧ ∃ rows,
      get_attendance new_Date_iso 0 on_jan_10 Healthy school
      = (Returned {| status := 200; json := AttendanceRows rows |},
         log (Select "attendance") school)
      ∧ rows = [late_evening].
Proof.
  split; [reflexivity|].
  destruct (attendance_of_a_day new_Date_iso on_jan_10 school 19732)
    as (rows & Hrun & _); [reflexivity | reflexivity |].
  exists rows. split; [exact Hrun|].
  vm_compute in Hrun. injection Hrun as <-. reflexivity.
Defined.

(** C5, as stated, fails west of UTC.  In New York, the local day
    2024-01-10 runs from 2024-01-10T05:00:00.000Z to
    2024-01-11T04:59:59.999Z.  Of two rows stamped at noon UTC of the 9th
    and of the 10th, the second lies within that day and the first does
    not; the query for [date=2024-01-10] returns the first and not the
    second: the date is read as midnight UTC, which is still the 9th in
    local time, and [setHours] keeps that local day. *)
Theorem attendance_query_misses_local_day :
  new_Date_iso (VStr "2024-01-10") = Some (Date_UTC 2024 1 10 0 0 0 0)
  ∧ get_attendance new_Date_iso new_york on_jan_10 Healthy two_noons
    = (Returned {| status := 200; json := AttendanceRows [noon_9th] |},
       log (Select "attendance") two_noons)
  ∧ Date_UTC 2024 1 10 5 0 0 0 ≤ Attendance.timestamp noon_10th
    ≤ Date_UTC 2024 1 11 4 59 59 999
  ∧ Attendance.timestamp noon_9th < Date_UTC 2024 1 10 5 0 0 0.
Proof.
  split; [reflexivity|]. split; [by vm_compute|].
  split; [by vm_compute|]. by vm_compute.
Qed.



(** * Further properties of the handlers *)

(** ** Confirmation: what it does to the store *)


(** X1.  Every confirmation is answered, with 201, 400, 409 or 500.  The
    ledger only grows at its end: an answer of 201 appended the returned
    row and nothing else, any other answer left the ledger as it was.  The
    [students] table is never touched. *)
Theorem confirm_ledger_append_only
    (body : gmap string value) (now_check now_insert : Z)
    (f_check f_insert : Fault) (w : World) :
  let run :=
    post_attendance_confirm body now_check now_insert f_check f_insert w in
  ∃ resp,
    run.1 = Returned resp
    ∧ (status resp = 201 ∨ status resp = 400 ∨ status resp = 409
       ∨ status resp = 500)
    ∧ students run.2 = students w
    ∧ (status resp = 201 →
       json resp
       = ConfirmedBody "Attendance confirmed successfully"
           (Some (confirmed_row body now_insert (attendance w)))
       ∧ attendance run.2
         = attendance w ++ [confirmed_row body now_insert (attendance w)])
    ∧ (status resp ≠ 201 → attendance run.2 = attendance w).
Proof.
  intros run.
  pose proof (post_attendance_confirm_run body now_check now_insert
                f_check f_insert w) as Hrun. fold run in Hrun.
  destruct Hrun; simpl; eexists; (split; [reflexivity|]); simpl;
    split_and!; auto; try done; try (intros; lia).
Qed.



(** The proviso on the ids is needed.  An id of [1e400] reads as an
    infinite number, which is truthy and is stored as [null]: the duplicate
    check, which looks for the id as sent, never finds the rows of that
    student, and two confirmations one second apart are both accepted. *)
Lemma confirm_breaks_cooldown_of_infinite_id :
  let first :=
    post_attendance_confirm infinite_id 1000 1001 Healthy Healthy
      empty_world in
  let second :=
    post_attendance_confirm infinite_id 2000 2001 Healthy Healthy first.2 in
  spaced (attendance empty_world)
  ∧ attendance second.2
    = [confirmed_row infinite_id 1001 [];
       confirmed_row infinite_id 2001 [confirmed_row infinite_id 1001 []]]
  ∧ Attendance.student_id (confirmed_row infinite_id 1001 []) = VNull
  ∧ ¬ spaced (attendance second.2).
Proof.
  intros first second. split_and!.
  - intros i j ri rj _ Hi. by destruct i.
  - reflexivity.
  - reflexivity.
  - intros Hspaced.
    pose proof (Hspaced 0%nat 1%nat _ _ ltac:(lia) eq_refl eq_refl eq_refl
                  eq_refl) as Hlate.
    vm_compute in Hlate. done.
Qed.

(** X3.  A confirmation does not consult the [students] table: its answer,
    the ledger it leaves and the round trips it makes are the same whatever
    that table holds.  A student that is not registered is confirmed like
    any other, under the name the request carries. *)
Theorem confirm_ignores_students
    (body : gmap string value) (now_check now_insert : Z)
    (f_check f_insert : Fault) (w : World) (l : list Students.row) :
  let run :=
    post_attendance_confirm body now_check now_insert f_check f_insert w in
  let run' :=
    post_attendance_confirm body now_check now_insert f_check f_insert
      (with_students l w) in
  run'.1 = run.1
  ∧ attendance run'.2 = attendance run.2
  ∧ calls run'.2 = calls run.2
  ∧ students run'.2 = l.
Proof.
  intros run run'. unfold run, run'.
  destruct (logs body) eqn:Hlogs.
  2: { by rewrite !confirm_log_throws. }
  destruct (valid body) eqn:Hv.
  2: { by rewrite !confirm_invalid. }
  destruct f_check as [|message|].
  - destruct (Supabase.execute
                (recent_attendance (field body "student_id")
                   (field body "room_id") (now_check - 5 * 60 * 1000))
                (attendance w)) as [|last rest] eqn:Hfound.
    + rewrite !confirm_insert by (done || by left).
      by destruct f_insert.
    + by rewrite !(confirm_duplicate _ _ _ _ _ _ last rest).
  - rewrite !confirm_insert by (done || (right; by exists message)).
    by destruct f_insert.
  - by rewrite !confirm_check_throws.
Qed.

(** X4.  A truthy [confidence] is stored in its JSON form, whatever its
    type and its range: the handler does not validate it.  The JSON form is
    the value as it was sent, unless it holds an infinite number; a
    confidence of [1e400] is stored as [null]. *)
Theorem confirm_stores_truthy_confidence
    (body : gmap string value) (now_check now_insert : Z)
    (f_check f_insert : Fault) (w : World) (r : Attendance.row) :
  truthy (field body "confidence") = true →
  (post_attendance_confirm body now_check now_insert f_check f_insert w).1
  = Returned {| status := 201;
                json := ConfirmedBody "Attendance confirmed successfully"
                          (Some r) |} →
  Attendance.confidence r = as_json (field body "confidence")
  ∧ (stored_as_sent (field body "confidence") →
     Attendance.confidence r = field body "confidence")
  ∧ r ∈ attendance
          (post_attendance_confirm body now_check now_insert
             f_check f_insert w).2.
Proof.
  intros Htruthy Hrun.
  pose proof (post_attendance_confirm_run body now_check now_insert
                f_check f_insert w) as Hcase.
  destruct Hcase; simpl in *; try discriminate.
  injection Hrun as <-. simpl. unfold js_or. rewrite Htruthy.
  split; [done|]. split; [done|].
  apply elem_of_app. right. apply list_elem_of_here.
Qed.

Lemma confirm_stores_truthy_confidence_witness :
  Attendance.confidence (confirmed_row vague 1001 []) = VStr "high"
  ∧ Attendance.confidence (confirmed_row overconfident 1001 [])
    = VNum (Q2Qc (QArith_base.Qmake 150 1))
  ∧ field boundless "confidence" = VInfinity false
  ∧ Attendance.confidence (confirmed_row boundless 1001 []) = VNull.
Proof.
  split_and!.
  - apply (confirm_stores_truthy_confidence vague 1000 1001 Healthy Healthy
             empty_world); reflexivity.
  - apply (confirm_stores_truthy_confidence overconfident 1000 1001
             Healthy Healthy empty_world); reflexivity.
  - reflexivity.
  - apply (confirm_stores_truthy_confidence boundless 1000 1001
             Healthy Healthy empty_world); reflexivity.
Defined.

(** ** The training flag: what the update leaves alone *)

(** X5.  However the store behaves, marking a student trained keeps the
    ledger and the number and order of the students; a row keeps its id,
    name and email; a trained student stays trained; and a row of another
    id is not changed at all. *)
Theorem markTrained_frame (id : string) (f : Fault) (w : World) :
  let run := post_students_trained id f w in
  attendance run.2 = attendance w
  ∧ length (students run.2) = length (students w)
  ∧ ∀ (i : nat) (s : Students.row),
      students w !! i = Some s →
      ∃ s',
        students run.2 !! i = Some s'
        ∧ Students.id s' = Students.id s
        ∧ Students.name s' = Students.name s
        ∧ Students.email s' = Students.email s
        ∧ (Students.is_trained s = true → Students.is_trained s' = true)
        ∧ (Students.id s ≠ id → s' = s).
Proof.
  intros run. unfold run. destruct f as [|message|].
  - rewrite post_students_trained_healthy. simpl.
    split; [done|]. split; [by rewrite length_fmap|].
    intros i s Hs. exists (mark id s).
    rewrite list_lookup_fmap, Hs. split; [done|].
    unfold mark. case_bool_decide; simpl; by split_and!.
  - simpl. split_and!; [done..|]. intros i s Hs. exists s. by split_and!.
  - simpl. split_and!; [done..|]. intros i s Hs. exists s. by split_and!.
Qed.

Lemma filter_mark_untrained id (l : list Students.row) :
  filter (λ s, Students.is_trained s = false) (mark id <$> l)
  = filter (λ s, Students.is_trained s = false ∧ Students.id s ≠ id) l.
Proof.
  induction l as [|s l IH]; [done|].
  rewrite fmap_cons. unfold mark at 1.
  destruct (decide (Students.id s = id)) as [Hid|Hid].
  - rewrite bool_decide_eq_true_2 by done.
    rewrite filter_cons_False by done.
    rewrite (filter_cons_False _ s l) by (by intros [_ ?]). done.
  - rewrite bool_decide_eq_false_2 by done.
    destruct (decide (Students.is_trained s = false)) as [Hu|Hu].
    + rewrite filter_cons_True by done.
      rewrite (filter_cons_True _ s l) by done. by rewrite IH.
    + rewrite filter_cons_False by done.
      rewrite (filter_cons_False _ s l) by (by intros [? _]). done.
Qed.

(** X6.  Once a student is marked trained, the untrained listing holds
    exactly the students that were untrained before and have another id. *)
Theorem markTrained_leaves_untrained_listing (id : string) (w : World) :
  let w1 := (post_students_trained id Healthy w).2 in
  ∃ rows,
    get_students_untrained Healthy w1
    = (Returned {| status := 200; json := StudentRows rows |},
       log (Select "students") w1)
    ∧ rows ≡ₚ filter (λ s, Students.is_trained s = false ∧ Students.id s ≠ id)
                (students w)
    ∧ ∀ s, s ∈ rows → Students.id s ≠ id.
Proof.
  intros w1.
  destruct (get_students_untrained_healthy w1) as (rows & Hrun & Hperm & _).
  exists rows. split; [done|].
  assert (rows ≡ₚ filter (λ s, Students.is_trained s = false
                               ∧ Students.id s ≠ id) (students w)) as Hrows.
  { rewrite Hperm. unfold w1. rewrite post_students_trained_healthy. simpl.
    by rewrite filter_mark_untrained. }
  split; [done|].
  intros s Hs. rewrite Hrows in Hs.
  by apply list_elem_of_filter in Hs as [[_ ?] _].
Qed.

(** ** The read handlers *)

(** X7.  The three listings only read: however the store behaves, the
    tables are as before and the handler made at most one round trip, a
    select. *)
Theorem listings_only_read
    (new_Date : value → option Z) (tz : Z)
    (query : gmap string value) (f : Fault) (w : World) :
  only_read "students" w (get_students f w).2
  ∧ only_read "students" w (get_students_untrained f w).2
  ∧ only_read "attendance" w (get_attendance new_Date tz query f w).2.
Proof.
  unfold only_read. split_and!; try (destruct f; simpl; by auto).
  all: unfold get_attendance, try_catch;
    (destruct (truthy (field query "date")); [|by destruct f; simpl; auto]);
    (destruct (new_Date (field query "date")); [|by simpl; auto]);
    rewrite setHours_start, setHours_end; by destruct f; simpl; auto.
Qed.



(** X9.  A date that does not parse is not a validation error: the handler
    throws while building the query and answers 500 "Internal server
    error", before any round trip to the store and however it behaves. *)
Theorem attendance_invalid_date_500
    (new_Date : value → option Z) (tz : Z)
    (query : gmap string value) (f : Fault) (w : World) :
  truthy (field query "date") = true →
  new_Date (field query "date") = None →
  get_attendance new_Date tz query f w
  = (Returned {| status := 500; json := ErrorBody "Internal server error" |},
     w).
Proof. intros Hd Hnone. by apply get_attendance_invalid_date. Qed.

Lemma attendance_invalid_date_500_witness :
  get_attendance new_Date_iso 0 on_the_45th Healthy school
  = (Returned {| status := 500; json := ErrorBody "Internal server error" |},
     school).
Proof.
  apply (attendance_invalid_date_500 new_Date_iso 0 on_the_45th Healthy school);
    reflexivity.
Defined.






(** ** From a confirmation to the listing *)

Lemma field_of_student_in_room student_id room_id :
  field (of_student_in_room student_id room_id) "student_id" = student_id
  ∧ field (of_student_in_room student_id room_id) "room_id" = room_id
  ∧ field (of_student_in_room student_id room_id) "date" = VUndefined.
Proof. unfold field, of_student_in_room. split_and!; by simplify_map_eq. Qed.

(** X12.  A row returned by an accepted confirmation is found again,
    when the student and the room of the request are stored as they are
    sent: the listing filtered by the student and the room of the request
    contains it, and shows it first when it is stamped later than every row
    the ledger held. *)
Theorem confirmed_row_is_listed
    (new_Date : value → option Z) (tz : Z)
    (body : gmap string value) (now_check now_insert : Z)
    (f_check f_insert : Fault) (w : World) (r : Attendance.row) :
  let run :=
    post_attendance_confirm body now_check now_insert f_check f_insert w in
  run.1 = Returned {| status := 201;
                      json := ConfirmedBody
                                "Attendance confirmed successfully"
                                (Some r) |} →
  stored_as_sent (field body "student_id") →
  stored_as_sent (field body "room_id") →
  ∃ rows,
    get_attendance new_Date tz
      (of_student_in_room (field body "student_id") (field body "room_id"))
      Healthy run.2
    = (Returned {| status := 200; json := AttendanceRows rows |},
       log (Select "attendance") run.2)
    ∧ r ∈ rows
    ∧ ((∀ r', r' ∈ attendance w → Attendance.timestamp r' < now_insert) →
       head rows = Some r).
Proof.
  intros run Hrun Hsent_sid Hsent_room.
  set (query := of_student_in_room (field body "student_id")
                  (field body "room_id")).
  destruct (field_of_student_in_room (field body "student_id")
              (field body "room_id")) as (Hsid & Hroom & Hdate).
  fold query in Hsid, Hroom, Hdate.
  assert (attendance run.2 = attendance w ++ [r]
          ∧ r = confirmed_row body now_insert (attendance w))
    as [Hledger ->].
  { pose proof (post_attendance_confirm_run body now_check now_insert
                  f_check f_insert w) as Hcase. fold run in Hcase.
    destruct Hcase; simpl in *; try discriminate.
    by injection Hrun as <-. }
  set (r := confirmed_row body now_insert (attendance w)) in *.
  destruct (get_attendance_healthy new_Date tz query run.2)
    as (rows & Hget & Hperm & Hsorted).
  { rewrite Hdate. discriminate. }
  assert (∀ x, x ∈ rows → x ∈ attendance w ∨ x = r) as Hfrom.
  { intros x Hx. rewrite Hperm in Hx.
    apply list_elem_of_filter in Hx as [_ Hx]. rewrite Hledger in Hx.
    apply elem_of_app in Hx as [?|Hx]; [by left|].
    right. by apply list_elem_of_singleton in Hx. }
  assert (r ∈ rows) as Hin.
  { rewrite Hperm. apply list_elem_of_filter. split.
    - unfold selected. rewrite Hsid, Hroom, Hdate. simpl.
      rewrite !bool_decide_eq_true_2 by done. by repeat case_match.
    - rewrite Hledger. apply elem_of_app. right. apply list_elem_of_here. }
  exists rows. split_and!; [done..|].
  intros Hnewest.
  destruct rows as [|h t]; [by apply elem_of_nil in Hin|]. simpl. f_equal.
  destruct (Hfrom h) as [Hold| ->]; [apply list_elem_of_here | | done].
  apply elem_of_cons in Hin as [->|Hin]; [done|].
  apply Sorted_StronglySorted in Hsorted.
  2: { intros a b c. lia. }
  apply StronglySorted_inv in Hsorted as [_ Hall].
  eapply Forall_forall in Hall; [|exact Hin].
  specialize (Hnewest h Hold). simpl in Hall. lia.
Qed.

Lemma confirmed_row_is_listed_witness :
  ∃ rows,
    get_attendance new_Date_iso 0
      (of_student_in_room (VStr "S1") (VStr "R1")) Healthy
      (post_attendance_confirm alice 400000 400001 Healthy Healthy
         stale_world).2
    = (Returned {| status := 200; json := AttendanceRows rows |},
       log (Select "attendance")
         (post_attendance_confirm alice 400000 400001 Healthy Healthy
            stale_world).2)
    ∧ head rows = Some (confirmed_row alice 400001 (attendance stale_world)).
Proof.
  destruct (confirmed_row_is_listed new_Date_iso 0 alice 400000 400001
              Healthy Healthy stale_world
              (confirmed_row alice 400001 (attendance stale_world)))
    as (rows & Hget & _ & Hhead); [reflexivity | reflexivity | reflexivity |].
  exists rows. split; [exact Hget|].
  apply Hhead. intros r' Hr'. simpl in Hr'.
  apply list_elem_of_singleton in Hr' as ->. simpl. lia.
Defined.

(** The proviso on the ids is needed: the row of a student whose id reads
    as an infinite number is stored under [null], and the listing for the
    id as sent does not show it. *)
Lemma confirmed_row_of_infinite_id_is_not_listed :
  let run :=
    post_attendance_confirm infinite_id 1000 1001 Healthy Healthy
      empty_world in
  run.1 = Returned (confirmed (confirmed_row infinite_id 1001 []))
  ∧ get_attendance new_Date_iso 0
      (of_student_in_room (field infinite_id "student_id")
         (field infinite_id "room_id")) Healthy run.2
    = (Returned {| status := 200; json := AttendanceRows [] |},
       log (Select "attendance") run.2).
Proof. split; reflexivity. Qed.

(** ** Saving face descriptors *)

(** The three ways through [POST /api/face-descriptors]. *)
Lemma post_face_descriptors_log_throws body f st :
  logs_descriptor body = false →
  post_face_descriptors body f st
  = ({| descriptor_status := 500;
        descriptor_json := DescriptorError "Internal server error" |}, st).
Proof.
  unfold logs_descriptor, post_face_descriptors. by intros ->.
Qed.

Lemma post_face_descriptors_invalid body f st :
  logs_descriptor body = true → valid_descriptor body = false →
  post_face_descriptors body f st
  = ({| descriptor_status := 400;
        descriptor_json :=
          DescriptorError
            "Missing required fields: student_id, descriptor, photo_number" |},
     st).
Proof.
  unfold logs_descriptor, valid_descriptor, post_face_descriptors.
  intros -> Hv. simpl. by rewrite <- !negb_andb, Hv.
Qed.

Lemma post_face_descriptors_valid body f st :
  logs_descriptor body = true → valid_descriptor body = true →
  post_face_descriptors body f st
  = let logged :=
      {| world := log (Insert "face_descriptors") (world st);
         face_descriptors := face_descriptors st |} in
    match f with
    | Healthy =>
        ({| descriptor_status := 201;
            descriptor_json :=
              DescriptorSaved "Face descriptor saved"
                (Some (saved_row body (face_descriptors st))) |},
         {| world := world logged;
            face_descriptors :=
              face_descriptors st ++ [saved_row body (face_descriptors st)] |})
    | Fails message =>
        ({| descriptor_status := 500;
            descriptor_json := DescriptorError message |}, logged)
    | Throws =>
        ({| descriptor_status := 500;
            descriptor_json := DescriptorError "Internal server error" |},
         logged)
    end.
Proof.
  unfold logs_descriptor, valid_descriptor, post_face_descriptors.
  intros -> Hv. simpl. rewrite <- !negb_andb, Hv. by destruct f.
Qed.

(** X13.  A descriptor whose [student_id], [descriptor] or [photo_number]
    is falsy is refused without any round trip: the registry is as before.
    The answer is 400 when the request can be logged ([student_id] and
    [photo_number] convert to strings), and 500 when it cannot.  A photo
    numbered 0 is refused with 400. *)
Theorem descriptor_missing_field_400
    (body : gmap string value) (f : Fault) (st : Registry) :
  valid_descriptor body = false →
  post_face_descriptors body f st
  = (if logs_descriptor body
     then {| descriptor_status := 400;
             descriptor_json :=
               DescriptorError
                 "Missing required fields: student_id, descriptor, photo_number" |}
     else {| descriptor_status := 500;
             descriptor_json := DescriptorError "Internal server error" |},
     st).
Proof.
  intros Hv. destruct (logs_descriptor body) eqn:Hlogs.
  - by apply post_face_descriptors_invalid.
  - by apply post_face_descriptors_log_throws.
Qed.

Lemma descriptor_missing_field_400_witness :
  field photo_0 "photo_number" = VNum 0%Qc
  ∧ (post_face_descriptors photo_0 Healthy school_registry).1
    = {| descriptor_status := 400;
         descriptor_json :=
           DescriptorError
             "Missing required fields: student_id, descriptor, photo_number" |}
  ∧ (post_face_descriptors photo_0 Healthy school_registry).2
    = school_registry
  ∧ (post_face_descriptors photo_of_nobody Healthy school_registry).1
    = {| descriptor_status := 500;
         descriptor_json := DescriptorError "Internal server error" |}.
Proof.
  split; [reflexivity|].
  rewrite (descriptor_missing_field_400 photo_0 Healthy school_registry)
    by reflexivity.
  rewrite (descriptor_missing_field_400 photo_of_nobody Healthy
             school_registry) by reflexivity.
  split_and!; reflexivity.
Defined.

(** X14.  A descriptor with its three fields, whose [student_id] and
    [photo_number] convert to strings, is saved by one insert and no read:
    with a healthy store the answer is 201 and the table is the old table
    followed by a row that carries the three values in their JSON form (as
    they were sent, unless they hold an infinite number), whatever rows the
    table held (no quota per student, no check of the photo number); when
    the store refuses or throws, the answer is 500 and the table is as
    before.  The students and the ledger are never touched: saving a
    descriptor marks nobody trained. *)
Theorem descriptor_saved_by_one_insert
    (body : gmap string value) (f : Fault) (st : Registry) :
  valid_descriptor body = true →
  logs_descriptor body = true →
  let run := post_face_descriptors body f st in
  students (world run.2) = students (world st)
  ∧ attendance (world run.2) = attendance (world st)
  ∧ calls (world run.2) = calls (world st) ++ [Insert "face_descriptors"]
  ∧ match f with
    | Healthy =>
        (∃ r,
           run.1 = {| descriptor_status := 201;
                      descriptor_json :=
                        DescriptorSaved "Face descriptor saved" (Some r) |}
           ∧ face_descriptors run.2 = face_descriptors st ++ [r]
           ∧ FaceDescriptors.student_id r
             = as_json (field body "student_id")
           ∧ FaceDescriptors.descriptor r
             = as_json (field body "descriptor")
           ∧ FaceDescriptors.photo_number r
             = as_json (field body "photo_number"))
    | Fails message =>
        run.1 = {| descriptor_status := 500;
                   descriptor_json := DescriptorError message |}
        ∧ face_descriptors run.2 = face_descriptors st
    | Throws =>
        run.1 = {| descriptor_status := 500;
                   descriptor_json :=
                     DescriptorError "Internal server error" |}
        ∧ face_descriptors run.2 = face_descriptors st
    end.
Proof.
  intros Hv Hlogs run. unfold run.
  rewrite post_face_descriptors_valid by done.
  destruct f; simpl; split_and!; try done.
  by eexists.
Qed.

Lemma descriptor_saved_by_one_insert_witness :
  ∃ r,
    (post_face_descriptors photo_1 Healthy school_registry).1
    = {| descriptor_status := 201;
         descriptor_json :=
           DescriptorSaved "Face descriptor saved" (Some r) |}
    ∧ face_descriptors
        (post_face_descriptors photo_1 Healthy school_registry).2 = [r]
    ∧ FaceDescriptors.student_id r = VStr "S2"
    ∧ FaceDescriptors.photo_number r = VNum 1%Qc.
Proof.
  destruct (descriptor_saved_by_one_insert photo_1 Healthy school_registry)
    as (_ & _ & _ & r & Hanswer & Htable & Hsid & _ & Hphoto);
    [reflexivity | reflexivity |].
  exists r. split_and!; [exact Hanswer | exact Htable | exact Hsid
                        | exact Hphoto].
Defined.

(** X15.  The same descriptor, valid and with a [student_id] and a
    [photo_number] that convert to strings, posted [n] times to a healthy
    store is stored [n] times: the table grows by [n] rows, each with the
    student, the photo number and the descriptor of the request in their
    JSON form. *)
Theorem descriptor_posts_accumulate
    (body : gmap string value) (n : nat) (st : Registry) :
  valid_descriptor body = true →
  logs_descriptor body = true →
  let st' :=
    Nat.iter n (λ s, (post_face_descriptors body Healthy s).2) st in
  ∃ added,
    face_descriptors st' = face_descriptors st ++ added
    ∧ length added = n
    ∧ Forall
        (λ r, FaceDescriptors.student_id r
              = as_json (field body "student_id")
              ∧ FaceDescriptors.photo_number r
                = as_json (field body "photo_number")
              ∧ FaceDescriptors.descriptor r
                = as_json (field body "descriptor"))
        added.
Proof.
  intros Hv Hlogs. induction n as [|n IH]; simpl.
  - exists []. by rewrite app_nil_r.
  - destruct IH as (added & Htable & Hlen & Hall).
    set (s := Nat.iter n _ st) in *.
    rewrite post_face_descriptors_valid by done. simpl.
    exists (added ++ [saved_row body (face_descriptors s)]).
    rewrite Htable, <- app_assoc. split; [done|]. split.
    + rewrite length_app. simpl. lia.
    + apply Forall_app. split; [done|]. by repeat constructor.
Qed.

Lemma descriptor_posts_accumulate_witness :
  length
    (face_descriptors
       (Nat.iter 6 (λ s, (post_face_descriptors photo_1 Healthy s).2)
          school_registry)) = 6%nat.
Proof.
  destruct (descriptor_posts_accumulate photo_1 6 school_registry)
    as (added & Htable & Hlen & _); [reflexivity | reflexivity |].
  rewrite Htable, length_app, Hlen. reflexivity.
Defined.

(** ** The client against the server *)

Lemma getStudents_healthy w :
  ∃ rows,
    getStudents Healthy w
    = (Resolved (StudentRows rows), log (Select "students") w)
    ∧ rows ≡ₚ students w.
Proof.
  destruct (get_students_healthy w) as (rows & Hrun & Hperm & _).
  exists rows. split; [|done].
  unfold getStudents, fetch. by rewrite Hrun.
Qed.



Lemma find_name_Some (l : list Students.row) name s :
  List.find (λ s, bool_decide (Students.name s = name)) l = Some s →
  s ∈ l ∧ Students.name s = name.
Proof.
  intros [Hin Hname]%find_some. split.
  - by apply list_elem_of_In.
  - by apply bool_decide_eq_true in Hname.
Qed.

Lemma find_name_None (l : list Students.row) name s :
  List.find (λ s, bool_decide (Students.name s = name)) l = None →
  s ∈ l → Students.name s ≠ name.
Proof.
  intros Hnone Hin%list_elem_of_In.
  pose proof (find_none _ _ Hnone s Hin) as Hs.
  by apply bool_decide_eq_false in Hs.
Qed.

Lemma fields_of_attendanceData (a b c d : value) :
  let body : gmap string value :=
    {[ "student_id" := a; "student_name" := b; "room_id" := c;
       "confidence" := d ]} in
  field body "student_id" = a ∧ field body "student_name" = b
  ∧ field body "room_id" = c ∧ field body "confidence" = d.
Proof. unfold field. split_and!; by simplify_map_eq. Qed.

(** What the callback sends can always be logged. *)
Lemma logs_attendanceData (a b c : value) (confidence : option Qc) :
  logs ({[ "student_id" := a; "student_name" := b; "room_id" := c;
           "confidence" := json_number confidence ]} : gmap string value)
  = true.
Proof.
  unfold logs.
  destruct (fields_of_attendanceData a b c (json_number confidence))
    as (_ & _ & _ & ->).
  destruct confidence; simpl; by rewrite ?orb_true_r.
Qed.



Lemma truthy_VStr s : s ≠ "" → truthy (VStr s) = true.
Proof. intros Hs. simpl. by apply bool_decide_eq_true. Qed.

(** The student that the callback picks among the listed ones. *)
Lemma recognition_finds_student studentName w s :
  s ∈ students w → Students.name s = studentName →
  ∃ rows student,
    getStudents Healthy w
    = (Resolved (StudentRows rows), log (Select "students") w)
    ∧ List.find (λ s, bool_decide (Students.name s = studentName)) rows
      = Some student
    ∧ student ∈ students w ∧ Students.name student = studentName.
Proof.
  intros Hin Hname.
  destruct (getStudents_healthy w) as (rows & Hget & Hperm).
  destruct (List.find (λ s, bool_decide (Students.name s = studentName)) rows)
    as [student|] eqn:Hfind.
  - apply find_name_Some in Hfind as Hstudent. destruct Hstudent as [? ?].
    exists rows, student. rewrite Hperm in *. by split_and!.
  - exfalso. eapply find_name_None; [exact Hfind | | exact Hname].
    by rewrite Hperm.
Qed.

(** X17.  A recognition of a student whose last row in the room is at most
    5 minutes old ends silently: the server answers 409, the callback
    recognises the message and reports nothing, and nothing is written. *)
Theorem recognition_within_cooldown_is_silent
    (studentName : string) (confidence : option Qc) (roomId : string)
    (now_check now_insert : Z) (f_insert : Fault) (w : World)
    (s : Students.row) (r0 : Attendance.row) :
  s ∈ students w → Students.name s = studentName →
  (∀ s', s' ∈ students w → Students.name s' = studentName →
         Students.id s' = Students.id s) →
  Students.id s ≠ "" → studentName ≠ "" → roomId ≠ "" →
  r0 ∈ attendance w →
  recent (VStr (Students.id s)) (VStr roomId) (now_check - 5 * 60 * 1000) r0 →
  let run :=
    handleRecognizedAttendance studentName confidence roomId
      now_check now_insert Healthy Healthy f_insert w in
  run.1 = AlreadyRecorded
  ∧ attendance run.2 = attendance w
  ∧ calls run.2 = calls w ++ [Select "students"; Select "attendance"].
Proof.
  intros Hin Hname Hunique Hid Hn Hroom Hr0 Hrecent run.
  unfold run, handleRecognizedAttendance.
  destruct (recognition_finds_student studentName w s Hin Hname)
    as (rows & student & -> & -> & Hstudent & Hsname).
  pose proof (Hunique student Hstudent Hsname) as Hsid.
  destruct (fields_of_attendanceData (VStr (Students.id student))
              (VStr (Students.name student)) (VStr roomId)
              (json_number confidence)) as (Hf1 & Hf2 & Hf3 & _).
  set (body := ({[ "student_id" := VStr (Students.id student);
                   "student_name" := VStr (Students.name student);
                   "room_id" := VStr roomId;
                   "confidence" := json_number confidence ]}
                : gmap string value)) in *.
  set (w1 := log (Select "students") w).
  destruct (recent_attendance_cons (VStr (Students.id s)) (VStr roomId)
              (now_check - 5 * 60 * 1000) (attendance w1) r0 Hr0 Hrecent)
    as (last & Hexec & _).
  unfold confirmAttendance, fetch.
  rewrite (confirm_duplicate body now_check now_insert Healthy f_insert w1
             last []).
  - simpl. split_and!; [done..|]. by rewrite <- app_assoc.
  - apply logs_attendanceData.
  - unfold valid. rewrite Hf1, Hf2, Hf3, Hsname, Hsid.
    by rewrite !truthy_VStr.
  - done.
  - by rewrite Hf1, Hf3, Hsid.
Qed.

(** Alice is recognised in R1 one minute after her last row there. *)
Lemma recognition_within_cooldown_is_silent_witness :
  let run :=
    handleRecognizedAttendance "Alice"
      (Some (Q2Qc (QArith_base.Qmake 925 10))) "R1"
      (Date_UTC 2024 1 11 0 0 0 0) (Date_UTC 2024 1 11 0 0 0 1)
      Healthy Healthy Healthy school in
  run.1 = AlreadyRecorded
  ∧ attendance run.2 = attendance school
  ∧ calls run.2 = calls school ++ [Select "students"; Select "attendance"].
Proof.
  apply (recognition_within_cooldown_is_silent "Alice"
           (Some (Q2Qc (QArith_base.Qmake 925 10))) "R1"
           (Date_UTC 2024 1 11 0 0 0 0) (Date_UTC 2024 1 11 0 0 0 1)
           Healthy school alice_row late_evening).
  - apply list_elem_of_further, list_elem_of_here.
  - reflexivity.
  - intros s' Hs' Hname. vm_compute in Hs'.
    apply elem_of_cons in Hs' as [->|Hs']; [discriminate Hname|].
    apply elem_of_cons in Hs' as [->|Hs']; [reflexivity|].
    by apply elem_of_nil in Hs'.
  - discriminate.
  - discriminate.
  - discriminate.
  - apply list_elem_of_here.
  - unfold recent. split_and!; [reflexivity | reflexivity | by vm_compute].
Defined.

(** X18.  With an empty room in the component, a recognition of a listed
    student is refused by the validation of the server: it ends in
    [Failed] with the message of the 400, and the store is only read for
    the students. *)
Theorem recognition_without_room_fails
    (studentName : string) (confidence : option Qc)
    (now_check now_insert : Z) (f_check f_insert : Fault) (w : World)
    (s : Students.row) :
  s ∈ students w → Students.name s = studentName →
  handleRecognizedAttendance studentName confidence ""
    now_check now_insert Healthy f_check f_insert w
  = (Failed "Missing required fields: student_id, student_name, room_id",
     log (Select "students") w).
Proof.
  intros Hin Hname. unfold handleRecognizedAttendance.
  destruct (recognition_finds_student studentName w s Hin Hname)
    as (rows & student & -> & -> & _).
  destruct (fields_of_attendanceData (VStr (Students.id student))
              (VStr (Students.name student)) (VStr "")
              (json_number confidence)) as (_ & _ & Hf3 & _).
  unfold confirmAttendance, fetch.
  rewrite confirm_invalid; [done | apply logs_attendanceData |].
  unfold valid. rewrite Hf3. simpl. by rewrite andb_false_r.
Qed.

Lemma recognition_without_room_fails_witness :
  handleRecognizedAttendance "Bob" None "" 1000 1001 Healthy Throws Throws
    school
  = (Failed "Missing required fields: student_id, student_name, room_id",
     log (Select "students") school).
Proof.
  apply (recognition_without_room_fails "Bob" None 1000 1001 Throws Throws
           school bob_row); [apply list_elem_of_here | reflexivity].
Defined.

(** X19.  A recognised name that no listed student bears ends the callback
    at once: no confirmation is sent, and the only round trip is the
    listing of the students. *)
Theorem recognition_of_unknown_name
    (studentName : string) (confidence : option Qc) (roomId : string)
    (now_check now_insert : Z) (f_check f_insert : Fault) (w : World) :
  (∀ s, s ∈ students w → Students.name s ≠ studentName) →
  handleRecognizedAttendance studentName confidence roomId
    now_check now_insert Healthy f_check f_insert w
  = (NotAStudent, log (Select "students") w).
Proof.
  intros Hno. unfold handleRecognizedAttendance.
  destruct (getStudents_healthy w) as (rows & -> & Hperm).
  destruct (List.find _ rows) as [student|] eqn:Hfind; [|done].
  apply find_name_Some in Hfind as [Hin Hname]. rewrite Hperm in Hin.
  by destruct (Hno student Hin).
Qed.

Lemma recognition_of_unknown_name_witness :
  handleRecognizedAttendance "Carol" None "R1" 1000 1001
    Healthy Healthy Healthy school
  = (NotAStudent, log (Select "students") school).
Proof.
  apply (recognition_of_unknown_name "Carol" None "R1" 1000 1001
           Healthy Healthy school).
  intros s Hs. vm_compute in Hs.
  repeat (apply elem_of_cons in Hs as [-> | Hs]; [discriminate|]).
  by apply elem_of_nil in Hs.
Defined.


(** The handler reads its query through the three fields only, and a falsy
    field is as good as an absent one. *)
Lemma get_attendance_ext new_Date tz (q1 q2 : gmap string value) f w :
  (∀ k, k = "student_id" ∨ k = "room_id" ∨ k = "date" →
        truthy (field q1 k) = truthy (field q2 k)
        ∧ (truthy (field q1 k) = true → field q1 k = field q2 k)) →
  get_attendance new_Date tz q1 f w = get_attendance new_Date tz q2 f w.
Proof.
  intros Hq.
  destruct (Hq "student_id") as [Hs1 Hs2]; [auto|].
  destruct (Hq "room_id") as [Hr1 Hr2]; [auto|].
  destruct (Hq "date") as [Hd1 Hd2]; [auto|].
  unfold get_attendance. rewrite <- Hs1, <- Hr1, <- Hd1.
  destruct (truthy (field q1 "student_id"));
    destruct (truthy (field q1 "room_id"));
    destruct (truthy (field q1 "date"));
    rewrite <- ?Hs2, <- ?Hr2, <- ?Hd2 by done; reflexivity.
Qed.

Lemma field_req_query (filters : gmap string string) k :
  k = "student_id" ∨ k = "room_id" ∨ k = "date" →
  field (req_query (getAttendance_params filters)) k
  = match filter_set filters k with
    | Some v => VStr v
    | None => VUndefined
    end.
Proof.
  unfold getAttendance_params, req_query, field.
  intros [-> | [-> | ->]];
    destruct (filter_set filters "student_id"),
      (filter_set filters "room_id"), (filter_set filters "date");
    simpl; by simplify_map_eq.
Qed.

(** X21.  [getAttendance(filters)] gets what the handler answers to the
    filters themselves: leaving the empty filters out of the query string
    changes nothing, since the server ignores an empty parameter as it
    ignores an absent one. *)
Theorem getAttendance_sends_the_filters
    (new_Date : value → option Z) (tz : Z)
    (filters : gmap string string) (f : Fault) (w : World) :
  getAttendance new_Date tz filters f w
  = (let '(x, w') :=
       fetch (get_attendance new_Date tz (VStr <$> filters) f) w in
     (apiRequest x, w')).
Proof.
  unfold getAttendance, fetch.
  rewrite (get_attendance_ext new_Date tz
             (req_query (getAttendance_params filters)) (VStr <$> filters));
    [done|].
  intros k Hk. rewrite field_req_query by done.
  unfold filter_set, field. rewrite lookup_fmap.
  destruct (filters !! k) as [v|]; simpl; [|done].
  case_bool_decide as Hv; simpl.
  - subst v. done.
  - by rewrite bool_decide_eq_true_2.
Qed.

(** ** Grouping the descriptors by student *)

Section grouping_facts.
Context {D : Type} (conv : value → D).

Lemma of_student_snoc id seen desc :
  of_student id (seen ++ [desc])
  = of_student id seen
    ++ (if decide (desc_student_id desc = id) then [desc] else []).
Proof. unfold of_student. by rewrite filter_app. Qed.

(** When the body of the [forEach] returns, and when it throws. *)
Lemma group_descriptor_cases grouped desc :
  no_inherited_key grouped →
  match group_descriptor conv grouped desc with
  | Some grouped' =>
      ¬ unusable desc
      ∧ (grouped !! desc_student_id desc = None →
         is_Some (desc_students desc))
      ∧ no_inherited_key grouped'
  | None =>
      unusable desc
      ∨ (grouped !! desc_student_id desc = None ∧ desc_students desc = None)
  end.
Proof.
  intros Hkeys. unfold group_descriptor, unusable. cbv zeta.
  destruct (decide (desc_student_id desc ∈ inherited)) as [Hin|Hout].
  { rewrite (Hkeys _ Hin), bool_decide_eq_true_2 by done.
    rewrite (Hkeys _ Hin). auto. }
  rewrite (bool_decide_eq_false_2 _ Hout).
  assert (∀ (f : @Group D → @Group D) (m : gmap string (@Group D)),
            no_inherited_key m →
            no_inherited_key (alter f (desc_student_id desc) m)) as Halter.
  { intros f m Hm id Hid. rewrite lookup_alter_ne; [by apply Hm|].
    by intros <-. }
  destruct (grouped !! desc_student_id desc) as [g|] eqn:Hg.
  - rewrite Hg.
    destruct (Float32Array_returns (desc_descriptor desc)) eqn:Hret;
      [|by auto].
    split_and!; [|done|by apply Halter].
    intros [?|?]; [done|congruence].
  - destruct (desc_students desc) as [name|] eqn:Hname; [|by auto].
    rewrite lookup_insert_eq.
    destruct (Float32Array_returns (desc_descriptor desc)) eqn:Hret;
      [|by auto].
    split_and!; [|done|].
    + intros [?|?]; [done|congruence].
    + apply Halter. intros id Hid.
      rewrite lookup_insert_ne; [by apply Hkeys|]. by intros <-.
Qed.

Lemma group_descriptor_step grouped seen desc grouped' :
  grouped_as conv grouped seen →
  group_descriptor conv grouped desc = Some grouped' →
  grouped_as conv grouped' (seen ++ [desc]).
Proof.
  intros Hinv Hstep id. unfold group_descriptor in Hstep.
  cbv zeta in Hstep.
  pose proof (Hinv id) as Hid. pose proof (Hinv (desc_student_id desc)) as Hsid.
  rewrite of_student_snoc.
  destruct (grouped !! desc_student_id desc) as [g|] eqn:Hg.
  - rewrite Hg in Hstep.
    destruct (Float32Array_returns (desc_descriptor desc)); [|done].
    injection Hstep as <-.
    destruct (decide (desc_student_id desc = id)) as [<-|Hne].
    + rewrite lookup_alter_eq, Hg. simpl.
      destruct Hsid as (Hgid & Hdescs & first & Hfirst & Hname).
      split_and!; [done| |].
      * by rewrite Hdescs, fmap_app.
      * exists first. split; [|done].
        destruct (of_student _ seen); [done|]. done.
    + rewrite app_nil_r. by rewrite lookup_alter_ne.
  - case_bool_decide; [by rewrite Hg in Hstep|].
    destruct (desc_students desc) as [name|] eqn:Hname; [|done].
    rewrite lookup_insert_eq in Hstep.
    destruct (Float32Array_returns (desc_descriptor desc)); [|done].
    injection Hstep as <-.
    destruct (decide (desc_student_id desc = id)) as [<-|Hne].
    + rewrite lookup_alter_eq, lookup_insert_eq. simpl.
      rewrite Hsid. simpl. split_and!; [done..|]. by exists desc.
    + rewrite app_nil_r. by rewrite lookup_alter_ne, lookup_insert_ne.
Qed.

Lemma forEach_group_Some rest grouped seen final :
  grouped_as conv grouped seen →
  forEach_group conv grouped rest = Some final →
  grouped_as conv final (seen ++ rest).
Proof.
  revert grouped seen. induction rest as [|desc rest IH];
    intros grouped seen Hinv Hrun; simpl in Hrun.
  - injection Hrun as <-. by rewrite app_nil_r.
  - destruct (group_descriptor conv grouped desc) as [grouped'|] eqn:Hstep;
      [|done].
    replace (seen ++ desc :: rest) with ((seen ++ [desc]) ++ rest)
      by (by rewrite <- app_assoc).
    eapply IH; [|done]. by eapply group_descriptor_step.
Qed.

(** A grouping that returns took every descriptor. *)
Lemma forEach_group_usable rest grouped final :
  no_inherited_key grouped →
  forEach_group conv grouped rest = Some final →
  ∀ desc, desc ∈ rest → ¬ unusable desc.
Proof.
  revert grouped. induction rest as [|desc rest IH];
    intros grouped Hkeys Hrun x Hx; [by apply elem_of_nil in Hx|].
  simpl in Hrun.
  pose proof (group_descriptor_cases grouped desc Hkeys) as Hcases.
  destruct (group_descriptor conv grouped desc) as [grouped'|]; [|done].
  destruct Hcases as (Husable & _ & Hkeys').
  apply elem_of_cons in Hx as [->|Hx]; [done|].
  by eapply IH.
Qed.

(** A grouping that throws met a descriptor it cannot take, or the first
    descriptor of some student came without its student. *)
Lemma forEach_group_None rest grouped seen :
  grouped_as conv grouped seen →
  no_inherited_key grouped →
  forEach_group conv grouped rest = None →
  (∃ desc, desc ∈ rest ∧ unusable desc)
  ∨ ∃ id first,
      head (of_student id (seen ++ rest)) = Some first
      ∧ desc_students first = None.
Proof.
  revert grouped seen. induction rest as [|desc rest IH];
    intros grouped seen Hinv Hkeys Hrun; simpl in Hrun; [done|].
  pose proof (group_descriptor_cases grouped desc Hkeys) as Hcases.
  destruct (group_descriptor conv grouped desc) as [grouped'|] eqn:Hstep.
  - destruct Hcases as (_ & _ & Hkeys').
    replace (seen ++ desc :: rest) with ((seen ++ [desc]) ++ rest)
      by (by rewrite <- app_assoc).
    destruct (IH grouped' (seen ++ [desc])) as [(x & Hx & Hbad)|Hfirst];
      [by eapply group_descriptor_step | done | done | |by right].
    left. exists x. split; [|done]. by apply list_elem_of_further.
  - destruct Hcases as [Hbad|[Hnew Hnone]].
    + left. exists desc. split; [apply list_elem_of_here | done].
    + right. exists (desc_student_id desc), desc. split; [|done].
      pose proof (Hinv (desc_student_id desc)) as Hsid.
      rewrite Hnew in Hsid.
      unfold of_student in *. rewrite filter_app, Hsid.
      by rewrite filter_cons_True.
Qed.

Lemma grouped_as_empty : grouped_as conv ∅ [].
Proof. intros id. by rewrite lookup_empty. Qed.

Lemma no_inherited_key_empty :
  no_inherited_key (∅ : gmap string (@Group D)).
Proof. intros id _. apply lookup_empty. Qed.
End grouping_facts.

(** X22.  When the grouping succeeds, there is one group per student id
    that occurs in the array and none for any other id; the group of an id
    holds the descriptors of that id, converted, in the order of the array,
    and is named after the student of the first of them. *)
Theorem groupedByStudent_partitions {D : Type} (conv : value → D)
    (descriptors : list Described) (grouped : gmap string Group) :
  groupedByStudent conv descriptors = Some grouped →
  ∀ id,
    match grouped !! id with
    | None => ∀ desc, desc ∈ descriptors → desc_student_id desc ≠ id
    | Some g =>
        group_id g = id
        ∧ group_descriptors g
          = (λ desc, conv (desc_descriptor desc))
              <$> filter (λ desc, desc_student_id desc = id) descriptors
        ∧ ∃ first,
            head (filter (λ desc, desc_student_id desc = id) descriptors)
            = Some first
            ∧ desc_students first = Some (group_name g)
    end.
Proof.
  intros Hrun id.
  pose proof (forEach_group_Some conv descriptors ∅ [] grouped
                (grouped_as_empty conv) Hrun id) as Hid.
  simpl in Hid. destruct (grouped !! id) as [g|]; [done|].
  intros desc Hin Hdesc.
  assert (desc ∈ of_student id descriptors) as Hof.
  { by apply list_elem_of_filter. }
  rewrite Hid in Hof. by apply elem_of_nil in Hof.
Qed.

Lemma groupedByStudent_partitions_witness :
  ∃ grouped : gmap string Group,
    groupedByStudent id
      [described_bob (sample 1); described_alice (sample 2);
       described_bob (sample 3)]
    = Some grouped
    ∧ (∃ g, grouped !! "S2" = Some g
            ∧ group_name g = "Bob"
            ∧ group_descriptors g = [sample 1; sample 3])
    ∧ grouped !! "S7" = None.
Proof.
  set (descriptors :=
         [described_bob (sample 1); described_alice (sample 2);
          described_bob (sample 3)]).
  destruct (groupedByStudent id descriptors) as [grouped|] eqn:Hrun;
    [|vm_compute in Hrun; discriminate Hrun].
  exists grouped. split; [reflexivity|].
  pose proof (groupedByStudent_partitions id descriptors grouped Hrun "S2")
    as Hbob.
  pose proof (groupedByStudent_partitions id descriptors grouped Hrun "S7")
    as Horphan.
  split.
  - destruct (grouped !! "S2") as [g|].
    + destruct Hbob as (_ & Hdescs & first & Hfirst & Hname).
      exists g. split; [reflexivity|]. split; [|exact Hdescs].
      vm_compute in Hfirst. injection Hfirst as <-.
      simpl in Hname. by injection Hname.
    + exfalso. apply (Hbob (described_bob (sample 1))); [|reflexivity].
      apply list_elem_of_here.
  - destruct (grouped !! "S7") as [g|]; [|reflexivity].
    destruct Horphan as (_ & _ & first & Hfirst & _).
    vm_compute in Hfirst. discriminate Hfirst.
Defined.

(** X23.  The grouping throws, and nothing is loaded, exactly when the
    array holds a descriptor whose student id is a name that every object
    inherits, or a descriptor whose typed array cannot be built (it is
    null, or one of its values has no primitive form), or when for some
    student id the first descriptor of that id in the array comes without
    its student. *)
Theorem groupedByStudent_fails_iff {D : Type} (conv : value → D)
    (descriptors : list Described) :
  groupedByStudent conv descriptors = None
  ↔ (∃ desc,
       desc ∈ descriptors
       ∧ (desc_student_id desc ∈ inherited
          ∨ Float32Array_returns (desc_descriptor desc) = false))
    ∨ ∃ id first,
        head (filter (λ desc, desc_student_id desc = id) descriptors)
        = Some first
        ∧ desc_students first = None.
Proof.
  split.
  - intros Hrun.
    by apply (forEach_group_None conv descriptors ∅ []
                (grouped_as_empty conv) no_inherited_key_empty).
  - intros Hbad.
    destruct (groupedByStudent conv descriptors) as [grouped|] eqn:Hrun;
      [exfalso|done].
    destruct Hbad as [(desc & Hin & Hbad)|(id & first & Hfirst & Hnone)].
    + by apply (forEach_group_usable conv descriptors ∅ grouped
                  no_inherited_key_empty Hrun desc Hin).
    + pose proof (forEach_group_Some conv descriptors ∅ [] grouped
                    (grouped_as_empty conv) Hrun id) as Hid.
      simpl in Hid. unfold of_student in Hid.
      destruct (grouped !! id) as [g|].
      * destruct Hid as (_ & _ & first' & Hfirst' & Hname). congruence.
      * rewrite Hid in Hfirst. discriminate Hfirst.
Qed.

(** A descriptor without student, a student called [constructor] and a
    descriptor that is [null] each make the grouping throw. *)
Lemma groupedByStudent_fails_iff_witness :
  groupedByStudent id
    [described_bob (sample 1); orphan;
     described_alice (sample 2)] = None
  ∧ groupedByStudent id [described_bob (sample 1);
                         described_constructor] = None
  ∧ groupedByStudent id [described_bob (sample 1); undescribed]
    = None.
Proof.
  split_and!.
  - apply (groupedByStudent_fails_iff id).
    right. exists "S7", orphan. split; reflexivity.
  - apply (groupedByStudent_fails_iff id).
    left. exists described_constructor. split.
    + apply list_elem_of_further, list_elem_of_here.
    + left. apply list_elem_of_here.
  - apply (groupedByStudent_fails_iff id).
    left. exists undescribed. split.
    + apply list_elem_of_further, list_elem_of_here.
    + right. reflexivity.
Defined.

(** ** When a confirmation is refused as a duplicate *)

(** X24.  The answer is 409 exactly when the request can be logged (its
    [confidence] is falsy or converts to a string) and is valid, the store
    answered the duplicate check, and the ledger holds a row of the same
    student and room stamped at or after [now_check - 5 min]; the row that
    the answer carries is the most recent of these. *)
Theorem confirm_409_iff_recent_row
    (body : gmap string value) (now_check now_insert : Z)
    (f_check f_insert : Fault) (w : World) :
  let run :=
    post_attendance_confirm body now_check now_insert f_check f_insert w in
  let is_recent :=
    recent (field body "student_id") (field body "room_id")
      (now_check - 5 * 60 * 1000) in
  ((∃ resp, run.1 = Returned resp ∧ status resp = 409)
   ↔ logs body = true ∧ valid body = true ∧ f_check = Healthy
     ∧ ∃ r, r ∈ attendance w ∧ is_recent r)
  ∧ ∀ error last,
      run.1 = Returned {| status := 409;
                          json := DuplicateBody error last |} →
      last ∈ attendance w ∧ is_recent last
      ∧ ∀ r, r ∈ attendance w → is_recent r →
             Attendance.timestamp r ≤ Attendance.timestamp last.
Proof.
  intros run is_recent.
  pose proof (post_attendance_confirm_run body now_check now_insert
                f_check f_insert w) as Hrun. fold run in Hrun.
  assert (∀ last rest,
            Supabase.execute
              (recent_attendance (field body "student_id")
                 (field body "room_id") (now_check - 5 * 60 * 1000))
              (attendance w) = last :: rest →
            last ∈ attendance w ∧ is_recent last
            ∧ ∀ r, r ∈ attendance w → is_recent r →
                   Attendance.timestamp r ≤ Attendance.timestamp last)
    as Hfound.
  { intros last rest Hexec.
    assert (last ∈ Supabase.execute
                     (recent_attendance (field body "student_id")
                        (field body "room_id") (now_check - 5 * 60 * 1000))
                     (attendance w)) as Hin
      by (rewrite Hexec; apply list_elem_of_here).
    apply elem_of_execute in Hin as [Hin Hm].
    apply matches_recent_attendance in Hm.
    destruct (recent_attendance_cons _ _ _ _ last Hin Hm)
      as (top & Htop & _ & _ & Hmax).
    rewrite Hexec in Htop. injection Htop as -> ->. by split_and!. }
  split.
  - split.
    + intros (resp & Hresp & Hstatus).
      destruct Hrun as [| | |last rest Hlogs Hv Hf Hexec| | |]; simpl in *;
        simplify_eq; simpl in *; try lia.
      destruct (Hfound last rest Hexec) as (? & ? & _).
      split_and!; [done..|]. eauto.
    + intros (Hlogs & Hv & -> & r & Hin & Hr).
      destruct (recent_attendance_cons _ _ _ _ r Hin Hr)
        as (last & Hexec & _).
      unfold run.
      rewrite (confirm_duplicate body now_check now_insert Healthy f_insert
                 w last []) by done.
      simpl. eauto.
  - intros error last Hresp.
    destruct Hrun as [| | |last' rest Hlogs Hv Hf Hexec| | |]; simpl in *;
      simplify_eq.
    by apply (Hfound last rest).
Qed.

(** A request that cannot be logged is answered 500 even within the
    window of a row of its student and room. *)
Lemma confirm_500_within_window :
  let body := <["room_id" := VStr "R1"]> unprintable in
  let run :=
    post_attendance_confirm body 1000 1001 Healthy Healthy stale_world in
  valid body = true
  ∧ recent (field body "student_id") (field body "room_id")
      (1000 - 5 * 60 * 1000) (confirmed_row alice 0 [])
  ∧ run = (Returned server_error, stale_world).
Proof.
  split; [reflexivity|]. split; [|reflexivity].
  unfold recent. split_and!; [reflexivity | reflexivity | by vm_compute].
Qed.
